(** * priceworm-dashboard: the crypto data fetcher, verified

    A shallow embedding of [src/priceworm-dashboard.py] (class
    [CryptoDataFetcher]) and the properties of its scoring, reference-price
    and liquidation logic.

    Modelling conventions.
    - Python [float] values are exact rationals ([Q]); [round] is Python 3's
      round-half-to-even.  Equality of computed rationals is [Qeq] ([==]).
    - The dicts held by the fetcher ([recent_liquidations],
      [reference_643am]) are finite maps keyed by strings; [d[k]] raises
      [KeyError] on a missing key and [d.get(k)] does not.
    - The dicts built literally with the two keys ['bitcoin'] and
      ['ethereum'] ([price_data], [funding_data], [liquidations_dict]) are
      two-field records.
    - Exceptions are values of [result]; a method that mutates [self] returns
      the new fetcher next to its outcome.
    - The network, the clock and the file system are inputs: every provider
      call is given by its outcome, [datetime.now()] by the instant read, and
      a file write by whether it succeeds.
    - A numeric field of a payload holds a number: payloads with [null] or
      NaN in such a field are outside the model. *)

From Stdlib Require Import QArith Qround Lqa.
From stdpp Require Import gmap strings list.

Local Open Scope string_scope.
Local Open Scope list_scope.
Local Open Scope Z_scope.
Local Open Scope Q_scope.

(** ** Numbers *)

(** [round(x)] on a float: nearest integer, ties to the even one. *)
Definition py_round (x : Q) : Z :=
  let f := Qfloor x in
  match Qcompare (x - inject_Z f) 0.5 with
  | Lt => f
  | Gt => (f + 1)%Z
  | Eq => if Z.even f then f else (f + 1)%Z
  end.

(** [sum(xs)] over floats. *)
Definition py_sum (xs : list Q) : Q := foldl Qplus 0 xs.

(** [len(xs)] as a float denominator. *)
Definition py_len {A} (xs : list A) : Q := inject_Z (Z.of_nat (length xs)).

(** ** Exceptions *)

Inductive exn := KeyError | TypeError | ZeroDivisionError.

Inductive result (A : Type) :=
  | Ok (a : A)
  | Raise (e : exn).
Arguments Ok {A} a.
Arguments Raise {A} e.

#[global] Instance result_ret : MRet result := @Ok.
#[global] Instance result_bind : MBind result := λ A B f m,
  match m with
  | Ok a => f a
  | Raise e => Raise e
  end.

(** [d[k]] *)
Definition getitem {V} (d : gmap string V) (k : string) : result V :=
  match d !! k with
  | Some v => Ok v
  | None => Raise KeyError
  end.

(** ** Data model (the dataclasses) *)

Record PriceData := mkPriceData {
  price : Q;
  change_24h : Q;
  volume : Q;
  market_cap : Q;
  pd_timestamp : string
}.

Record FundingData := mkFundingData {
  binance : option Q;
  bybit : option Q;
  okx : option Q;
  average : option Q
}.

(** [side]: ['SELL'] is a long liquidation, ['BUY'] a short liquidation. *)
Record LiquidationEvent := mkLiquidationEvent {
  symbol : string;
  side : string;
  quantity : Q;
  liq_price : Q;
  value : Q;
  time : string;
  exchange : string
}.

(** A dict built with exactly the keys ['bitcoin'] and ['ethereum']. *)
Record by_crypto (A : Type) := mkByCrypto {
  bitcoin : A;
  ethereum : A
}.
Arguments mkByCrypto {A} _ _.
Arguments bitcoin {A} _.
Arguments ethereum {A} _.

(** The instant read by [datetime.now()], in local wall-clock fields. *)
Record datetime := mkDatetime {
  year : Z;
  month : Z;
  day : Z;
  hour : Z;
  minute : Z;
  second : Z;
  microsecond : Z
}.

(** A value of the [reference_643am] dict: [None], a price, or the
    capture instant (kept as the instant; its ISO rendering is not needed). *)
Inductive ref_value :=
  | RNone
  | RFloat (p : Q)
  | RStamp (t : datetime).

Record MarketData := mkMarketData {
  md_bitcoin : PriceData;
  md_ethereum : PriceData;
  funding_rates : by_crypto FundingData;
  liquidations : by_crypto (list LiquidationEvent);
  sentiment_score : Z;
  md_reference_643am : gmap string ref_value;
  md_timestamp : string
}.

(** What a file written by the fetcher holds. *)
Inductive blob :=
  | ReferenceBlob (r : gmap string ref_value)
  | MarketBlob (m : MarketData).

(** ** The fetcher and its files *)

Record CryptoDataFetcher := mkFetcher {
  reference_643am : gmap string ref_value;
  recent_liquidations : gmap string (list LiquidationEvent);
  files : gmap string blob
}.

Definition set_reference (r : gmap string ref_value) (self : CryptoDataFetcher) :=
  mkFetcher r (recent_liquidations self) (files self).

Definition set_liquidations (l : gmap string (list LiquidationEvent))
    (self : CryptoDataFetcher) :=
  mkFetcher (reference_643am self) l (files self).

Definition set_files (f : gmap string blob) (self : CryptoDataFetcher) :=
  mkFetcher (reference_643am self) (recent_liquidations self) f.

(** [open(name, 'w')] followed by [json.dump].  [io_ok = false] is a write
    whose [open] raises: the caller's [except] catches it and the files are
    as they were.  A write that fails after [open], which has truncated the
    file by then, is not modelled. *)
Definition write_file (name : string) (b : blob) (io_ok : bool)
    (self : CryptoDataFetcher) : CryptoDataFetcher :=
  if io_ok then set_files (<[name := b]> (files self)) self else self.

Definition save_reference_prices (io_ok : bool) (self : CryptoDataFetcher) :=
  write_file "reference_prices.json" (ReferenceBlob (reference_643am self)) io_ok self.

(** [json.load] of the anchor file, when it exists and holds an anchor; a
    missing or unreadable file leaves the anchor as [__init__] set it.  (A
    readable file holding other JSON is outside the model.) *)
Definition load_reference_prices (self : CryptoDataFetcher) : CryptoDataFetcher :=
  match files self !! "reference_prices.json" with
  | Some (ReferenceBlob r) => set_reference r self
  | _ => self
  end.

(** [__init__], given the files found on disk. *)
Definition init (disk : gmap string blob) : CryptoDataFetcher :=
  load_reference_prices
    (mkFetcher
       {[ "bitcoin" := RNone; "ethereum" := RNone; "timestamp" := RNone ]}
       {[ "bitcoin" := []; "ethereum" := [] ]}
       disk).

Definition save_data_to_json (data : MarketData) (io_ok : bool)
    (self : CryptoDataFetcher) : CryptoDataFetcher :=
  write_file "market_data.json" (MarketBlob data) io_ok self.

(** ** Providers

    A request either raises (network error, undecodable or incomplete
    payload) or replies. *)

Inductive reply (A : Type) :=
  | Fails
  | Replies (a : A).
Arguments Fails {A}.
Arguments Replies {A} a.

(** One entry of the CoinGecko [simple/price] payload. *)
Record quote := mkQuote {
  usd : Q;
  usd_24h_change : Q;
  usd_24h_vol : Q;
  usd_market_cap : Q
}.

Definition get_price_data (response : reply (by_crypto quote))
    (now_btc now_eth : string) : option (by_crypto PriceData) :=
  match response with
  | Replies data =>
      Some (mkByCrypto
        (mkPriceData (usd (bitcoin data)) (usd_24h_change (bitcoin data))
           (usd_24h_vol (bitcoin data)) (usd_market_cap (bitcoin data)) now_btc)
        (mkPriceData (usd (ethereum data)) (usd_24h_change (ethereum data))
           (usd_24h_vol (ethereum data)) (usd_market_cap (ethereum data)) now_eth))
  | Fails => None
  end.

Definition set_binance (r : Q) (fd : FundingData) : FundingData :=
  mkFundingData (Some r) (bybit fd) (okx fd) (average fd).

Definition set_bybit (r : Q) (fd : FundingData) : FundingData :=
  mkFundingData (binance fd) (Some r) (okx fd) (average fd).

Definition set_average (r : Q) (fd : FundingData) : FundingData :=
  mkFundingData (binance fd) (bybit fd) (okx fd) (Some r).

Definition on_bitcoin {A} (f : A → A) (d : by_crypto A) : by_crypto A :=
  mkByCrypto (f (bitcoin d)) (ethereum d).

Definition on_ethereum {A} (f : A → A) (d : by_crypto A) : by_crypto A :=
  mkByCrypto (bitcoin d) (f (ethereum d)).

(** One exchange's [try] block: the bitcoin request, then the ethereum
    request; a request that raises ends the block, keeping what was set.
    A reply without a rate (empty list, no ['result']) sets nothing. *)
Definition exchange_block (set : Q → FundingData → FundingData)
    (btc eth : reply (option Q)) (funding_data : by_crypto FundingData)
    : by_crypto FundingData :=
  match btc with
  | Fails => funding_data
  | Replies b =>
      let funding_data :=
        match b with
        | Some r => on_bitcoin (set r) funding_data
        | None => funding_data
        end in
      match eth with
      | Fails => funding_data
      | Replies e =>
          match e with
          | Some r => on_ethereum (set r) funding_data
          | None => funding_data
          end
      end
  end.

(** The body of the [for crypto in ['bitcoin', 'ethereum']] loop. *)
Definition calculate_average (fd : FundingData) : FundingData :=
  let rates := [binance fd; bybit fd] in
  let valid_rates := omap id rates in
  match valid_rates with
  | [] => fd
  | _ :: _ => set_average (py_sum valid_rates / py_len valid_rates) fd
  end.

Definition get_funding_rates (session_ok : bool)
    (binance_btc binance_eth bybit_btc bybit_eth : reply (option Q))
    : option (by_crypto FundingData) :=
  if session_ok then
    let funding_data :=
      mkByCrypto (mkFundingData None None None None)
                 (mkFundingData None None None None) in
    let funding_data := exchange_block set_binance binance_btc binance_eth funding_data in
    let funding_data := exchange_block set_bybit bybit_btc bybit_eth funding_data in
    let funding_data := on_bitcoin calculate_average funding_data in
    let funding_data := on_ethereum calculate_average funding_data in
    Some funding_data
  else None.

(** ** Liquidation aggregator *)

Definition crypto_map : gmap string string :=
  {[ "BTCUSDT" := "bitcoin"; "ETHUSDT" := "ethereum" ]}.

(** [l[-n:]] *)
Definition slice_last {A} (n : nat) (l : list A) : list A :=
  drop (length l - n) l.

Definition process_liquidation (self : CryptoDataFetcher)
    (liquidation : LiquidationEvent) : CryptoDataFetcher * result unit :=
  match crypto_map !! symbol liquidation with
  | Some crypto =>
      match getitem (recent_liquidations self) crypto with
      | Ok history =>
          let history := history ++ [liquidation] in
          let history :=
            if (20 <? length history)%nat then slice_last 20 history
            else history in
          (set_liquidations (<[crypto := history]> (recent_liquidations self)) self,
           Ok ())
      | Raise e => (self, Raise e)
      end
  | None => (self, Ok ())
  end.

(** [x > y] on floats. *)
Definition Qgtb (x y : Q) : bool :=
  match Qcompare x y with
  | Gt => true
  | _ => false
  end.

(** A message of the [!forceOrder@arr] stream, after [json.loads]. *)
Inductive message :=
  | NotJson                                  (* JSONDecodeError *)
  | NoOrder                                  (* no key ['o'] *)
  | BadOrder                                 (* ['o'] lacks a field or a number *)
  | Order (sym sd : string) (q p : Q) (T : Z).

Section Stream.

(** [datetime.fromtimestamp(T / 1000).strftime('%H:%M:%S')], which
    depends on the host's time zone and raises out of range. *)
Variable strftime_HMS : Z → option string.

(** The body of the [async for] loop, with its two [except] clauses:
    whatever happens, the loop goes on with the next message. *)
Definition on_message (self : CryptoDataFetcher) (msg : message)
    : CryptoDataFetcher :=
  match msg with
  | NotJson | NoOrder | BadOrder => self
  | Order sym sd q p T =>
      match strftime_HMS T with
      | None => self
      | Some t =>
          let liquidation := mkLiquidationEvent sym sd q p (q * p) t "Binance" in
          if Qgtb (value liquidation) 100000
          then fst (process_liquidation self liquidation)
          else self
      end
  end.

Definition setup_liquidation_websocket (self : CryptoDataFetcher)
    (stream : list message) : CryptoDataFetcher :=
  foldl on_message self stream.

End Stream.

(** ** Reference price tracker *)

Definition capture_643am_price (self : CryptoDataFetcher)
    (price_data : by_crypto PriceData) (est_time : datetime) (io_ok : bool)
    : CryptoDataFetcher :=
  if ((hour est_time =? 6) && (minute est_time =? 43))%Z then
    let self :=
      set_reference
        {[ "bitcoin" := RFloat (price (bitcoin price_data));
           "ethereum" := RFloat (price (ethereum price_data));
           "timestamp" := RStamp est_time ]} self in
    save_reference_prices io_ok self
  else self.

Definition calculate_change_from_643am (self : CryptoDataFetcher)
    (current_price : Q) (crypto : string) : result (option Q) :=
  match reference_643am self !! crypto with
  | None | Some RNone => Ok None
  | Some (RFloat ref_price) =>
      if Qeq_bool ref_price 0 then Raise ZeroDivisionError
      else Ok (Some (((current_price - ref_price) / ref_price) * 100))
  | Some (RStamp _) => Raise TypeError
  end.

(** ** Sentiment scorer *)

(** [x < y] on floats. *)
Definition Qltb (x y : Q) : bool :=
  match Qcompare x y with
  | Lt => true
  | _ => false
  end.

(** [x or 0] for an optional float: [None] and [0.0] are both falsy. *)
Definition or_zero (x : option Q) : Q :=
  match x with
  | Some r => if Qeq_bool r 0 then 0 else r
  | None => 0
  end.

(** [sum(1 for liq in liqs if liq.side == tag)] *)
Definition count_side (tag : string) (liqs : list LiquidationEvent) : Z :=
  Z.of_nat (length (filter (λ liq, side liq = tag) liqs)).

Definition calculate_sentiment_score (self : CryptoDataFetcher)
    (price_data : by_crypto PriceData) (funding_data : by_crypto FundingData)
    : result Z :=
  let score : Q := 0 in
  (* Liquidation component *)
  btc_liqs ← getitem (recent_liquidations self) "bitcoin";
  eth_liqs ← getitem (recent_liquidations self) "ethereum";
  let score :=
    match btc_liqs with
    | [] => score
    | _ :: _ =>
        let long_liqs := count_side "SELL" btc_liqs in
        let short_liqs := count_side "BUY" btc_liqs in
        if (0 <? long_liqs + short_liqs)%Z then
          let liq_ratio := inject_Z short_liqs / inject_Z (long_liqs + short_liqs) in
          score + (liq_ratio - 0.5) * 60
        else score
    end in
  (* Funding rates component *)
  let btc_funding := or_zero (average (bitcoin funding_data)) in
  let eth_funding := or_zero (average (ethereum funding_data)) in
  let avg_funding := (btc_funding + eth_funding) / 2 in
  let score :=
    if Qgtb avg_funding 0.02 then score - 25
    else if Qltb avg_funding 0.01 then score + 25
    else score + (0.015 - avg_funding) * 1250 in
  (* Volume momentum *)
  let btc_momentum := if Qgtb (change_24h (bitcoin price_data)) 0 then 12.5 else -12.5 in
  let eth_momentum := if Qgtb (change_24h (ethereum price_data)) 0 then 12.5 else -12.5 in
  let score := score + (btc_momentum + eth_momentum) in
  (* Price change from 6:43 AM *)
  btc_643_change ← calculate_change_from_643am self (price (bitcoin price_data)) "bitcoin";
  eth_643_change ← calculate_change_from_643am self (price (ethereum price_data)) "ethereum";
  let score :=
    match btc_643_change, eth_643_change with
    | Some b, Some e =>
        let avg_643_change := (b + e) / 2 in
        score + (if Qgtb avg_643_change 0 then 20 else -20)
    | _, _ => score
    end in
  Ok (py_round score).

(** ** Collection orchestrator *)

(** Everything one poll reads from outside the process. *)
Record poll_inputs := mkPollInputs {
  coingecko : reply (by_crypto quote);
  now_btc : string;
  now_eth : string;
  session_ok : bool;
  binance_btc : reply (option Q);
  binance_eth : reply (option Q);
  bybit_btc : reply (option Q);
  bybit_eth : reply (option Q);
  est_time : datetime;
  reference_io_ok : bool;
  now_snapshot : string;
  market_io_ok : bool
}.

(** [fetch_all_data], from the point where both fetches have returned (no
    [await] follows, so the rest runs without interleaving). *)
Definition fetch_all_data (self : CryptoDataFetcher) (inp : poll_inputs)
    : CryptoDataFetcher * result (option MarketData) :=
  let price_data := get_price_data (coingecko inp) (now_btc inp) (now_eth inp) in
  let funding_data :=
    get_funding_rates (session_ok inp) (binance_btc inp) (binance_eth inp)
      (bybit_btc inp) (bybit_eth inp) in
  match price_data, funding_data with
  | Some price_data, Some funding_data =>
      let self := capture_643am_price self price_data (est_time inp) (reference_io_ok inp) in
      let market_data :=
        sentiment_score ← calculate_sentiment_score self price_data funding_data;
        btc ← getitem (recent_liquidations self) "bitcoin";
        eth ← getitem (recent_liquidations self) "ethereum";
        Ok (Some (mkMarketData (bitcoin price_data) (ethereum price_data)
                    funding_data (mkByCrypto btc eth) sentiment_score
                    (reference_643am self) (now_snapshot inp))) in
      (self, market_data)
  | _, _ => (self, Ok None)
  end.

(** One iteration of [scheduled_fetch]: an exception is caught and logged,
    and a snapshot is saved only when one was returned. *)
Definition scheduled_fetch (self : CryptoDataFetcher) (inp : poll_inputs)
    : CryptoDataFetcher :=
  match fetch_all_data self inp with
  | (self, Ok (Some data)) => save_data_to_json data (market_io_ok inp) self
  | (self, _) => self
  end.

(** The snapshot an iteration hands to [save_data_to_json], if any. *)
Definition emitted (self : CryptoDataFetcher) (inp : poll_inputs)
    : option MarketData :=
  match fetch_all_data self inp with
  | (_, Ok (Some data)) => Some data
  | _ => None
  end.

(** ** The four contributions

    What each commented block of [calculate_sentiment_score] adds to
    [score]; a block that leaves [score] alone contributes 0.
    [score_decomposition] below relates them to the function. *)

Definition liquidation_component (btc_liqs : list LiquidationEvent) : Q :=
  match btc_liqs with
  | [] => 0
  | _ :: _ =>
      let long_liqs := count_side "SELL" btc_liqs in
      let short_liqs := count_side "BUY" btc_liqs in
      if (0 <? long_liqs + short_liqs)%Z then
        let liq_ratio := inject_Z short_liqs / inject_Z (long_liqs + short_liqs) in
        (liq_ratio - 0.5) * 60
      else 0
  end.

Definition avg_funding (funding_data : by_crypto FundingData) : Q :=
  (or_zero (average (bitcoin funding_data))
   + or_zero (average (ethereum funding_data))) / 2.

Definition funding_component (funding_data : by_crypto FundingData) : Q :=
  if Qgtb (avg_funding funding_data) 0.02 then -25
  else if Qltb (avg_funding funding_data) 0.01 then 25
  else (0.015 - avg_funding funding_data) * 1250.

Definition momentum_component (price_data : by_crypto PriceData) : Q :=
  (if Qgtb (change_24h (bitcoin price_data)) 0 then 12.5 else -12.5)
  + (if Qgtb (change_24h (ethereum price_data)) 0 then 12.5 else -12.5).

Definition reference_component (btc_643_change eth_643_change : option Q) : Q :=
  match btc_643_change, eth_643_change with
  | Some b, Some e => if Qgtb ((b + e) / 2) 0 then 20 else -20
  | _, _ => 0
  end.

(** ** The two tasks, interleaved

    [main] runs the liquidation stream and the poll loop as two asyncio
    tasks on one thread: the fetcher changes one message or one poll at a
    time. *)

Inductive operation :=
  | Message (msg : message)
  | Poll (inp : poll_inputs).

Definition run (strftime_HMS : Z → option string) (self : CryptoDataFetcher)
    (op : operation) : CryptoDataFetcher :=
  match op with
  | Message msg => on_message strftime_HMS self msg
  | Poll inp => scheduled_fetch self inp
  end.

(** ** Predicates used in the statements *)

(** Every history holds at most 20 events. *)
Definition histories_bounded (self : CryptoDataFetcher) : Prop :=
  ∀ crypto history,
    recent_liquidations self !! crypto = Some history → (length history ≤ 20)%nat.

(** Both histories exist, as [__init__] creates them. *)
Definition has_histories (self : CryptoDataFetcher) : Prop :=
  is_Some (recent_liquidations self !! "bitcoin")
  ∧ is_Some (recent_liquidations self !! "ethereum").

(** No anchor price is held for [crypto]: the entry is [None] or missing. *)
Definition uncaptured (self : CryptoDataFetcher) (crypto : string) : Prop :=
  reference_643am self !! crypto = Some RNone
  ∨ reference_643am self !! crypto = None.

(** The anchor entry for [crypto] is absent or a price one can divide by. *)
Definition anchor_usable (self : CryptoDataFetcher) (crypto : string) : Prop :=
  match reference_643am self !! crypto with
  | None | Some RNone => True
  | Some (RFloat ref_price) => ¬ ref_price == 0
  | Some (RStamp _) => False
  end.

(** The specification's derived average: the arithmetic mean of the rates
    that are present, undefined when none is. *)
Definition mean_of_present (rates : list (option Q)) : option Q :=
  match omap id rates with
  | [] => None
  | present => Some (py_sum present / py_len present)
  end.

(** ** Sample inputs *)

Definition sample_prices : by_crypto PriceData :=
  mkByCrypto (mkPriceData 60000 2 0 0 "") (mkPriceData 3000 (-1) 0 0 "").

Definition sample_funding : by_crypto FundingData :=
  mkByCrypto (mkFundingData (Some 0.005) None None (Some 0.005))
             (mkFundingData (Some 0.03) None None (Some 0.03)).

Definition sample_event (sym sd : string) (q p : Q) : LiquidationEvent :=
  mkLiquidationEvent sym sd q p (q * p) "12:00:00" "Binance".

Definition sample_clock (T : Z) : option string := Some "12:00:00".

Definition sample_time (h m s : Z) : datetime := mkDatetime 2024 1 15 h m s 0.

Definition sample_quotes : by_crypto quote :=
  mkByCrypto (mkQuote 60000 2 0 0) (mkQuote 3000 (-1) 0 0).

Definition sample_inputs (prices : reply (by_crypto quote)) (session : bool)
    : poll_inputs :=
  mkPollInputs prices "" "" session
    (Replies (Some 0.005)) (Replies (Some 0.03)) Fails Fails
    (sample_time 12 0 0) true "" true.

(** Twenty distinct bitcoin liquidations, oldest first. *)
Definition sample_history : list LiquidationEvent :=
  map (λ n, sample_event "BTCUSDT" "SELL" (inject_Z (Z.of_nat n)) 200000) (seq 1 20).

(** ** Notions used for the further properties *)

(** [process_liquidation] called on each event of a list in turn. *)
Definition record_all (self : CryptoDataFetcher) (events : list LiquidationEvent)
    : CryptoDataFetcher :=
  foldl (λ self liquidation, fst (process_liquidation self liquidation)) self events.

(** The messages for which [on_message] reaches the append: an order with a
    renderable time, a value above 100,000 and a symbol of [crypto_map]. *)
Definition reaches_append (strftime_HMS : Z → option string) (msg : message) : bool :=
  match msg with
  | Order sym sd q p T =>
      match strftime_HMS T, crypto_map !! sym with
      | Some _, Some _ => Qgtb (q * p) 100000
      | _, _ => false
      end
  | _ => false
  end.

(** An event as the stream handler builds and keeps it under [crypto]. *)
Definition genuine (crypto : string) (liquidation : LiquidationEvent) : Prop :=
  crypto_map !! symbol liquidation = Some crypto
  ∧ value liquidation = quantity liquidation * liq_price liquidation
  ∧ 100000 < value liquidation
  ∧ exchange liquidation = "Binance".

(** The anchor holds nothing at all, or two prices and their instant. *)
Definition anchor_all_or_nothing (self : CryptoDataFetcher) : Prop :=
  reference_643am self
  = {[ "bitcoin" := RNone; "ethereum" := RNone; "timestamp" := RNone ]}
  ∨ ∃ pb pe t,
      reference_643am self
      = {[ "bitcoin" := RFloat pb; "ethereum" := RFloat pe; "timestamp" := RStamp t ]}.

(** The start of [main]: build the fetcher, fetch once and save the
    snapshot, outside any [try]; an exception here ends the process. *)
Definition main_startup (disk : gmap string blob) (inp : poll_inputs)
    : result CryptoDataFetcher :=
  let fetcher := init disk in
  match fetch_all_data fetcher inp with
  | (fetcher, Ok (Some market_data)) =>
      Ok (save_data_to_json market_data (market_io_ok inp) fetcher)
  | (fetcher, Ok None) => Ok fetcher
  | (_, Raise e) => Raise e
  end.

(** * Properties *)

(** ** Rounding and comparisons *)

Lemma Qgtb_spec (x y : Q) : Qgtb x y = true ↔ y < x.
Proof.
  unfold Qgtb. rewrite Qgt_alt. destruct (x ?= y); intuition congruence.
Qed.

Lemma Qgtb_false (x y : Q) : Qgtb x y = false ↔ x <= y.
Proof.
  unfold Qgtb. rewrite Qle_alt. destruct (x ?= y); intuition congruence.
Qed.

Lemma Qltb_spec (x y : Q) : Qltb x y = true ↔ x < y.
Proof.
  unfold Qltb. rewrite Qlt_alt. destruct (x ?= y); intuition congruence.
Qed.

Lemma Qltb_false (x y : Q) : Qltb x y = false ↔ y <= x.
Proof.
  unfold Qltb. rewrite Qge_alt. destruct (x ?= y); intuition congruence.
Qed.

#[global] Instance py_round_proper : Proper (Qeq ==> eq) py_round.
Proof.
  intros x y Hxy. unfold py_round.
  rewrite (Qfloor_comp _ _ Hxy).
  assert (Hc : (x - inject_Z (Qfloor y) ?= 0.5) = (y - inject_Z (Qfloor y) ?= 0.5))
    by (apply Qcompare_comp; [rewrite Hxy|]; reflexivity).
  rewrite Hc. reflexivity.
Qed.

(** Rounding moves to a neighbouring integer, so it stays between any two
    integers that enclose its argument. *)
Lemma py_round_between (a b : Z) (x : Q) :
  inject_Z a <= x → x <= inject_Z b → (a ≤ py_round x ≤ b)%Z.
Proof.
  intros Ha Hb.
  pose proof (Qfloor_le x) as Hfl.
  assert (Hlo : (a ≤ Qfloor x)%Z).
  { rewrite <- (Qfloor_Z a). apply Qfloor_resp_le, Ha. }
  assert (Hup : (Qfloor x ≤ b)%Z).
  { rewrite <- (Qfloor_Z b). apply Qfloor_resp_le, Hb. }
  assert (Hstep : 0 < x - inject_Z (Qfloor x) → (Qfloor x + 1 ≤ b)%Z).
  { intros Hpos.
    assert (Hlt : inject_Z (Qfloor x) < inject_Z b) by lra.
    rewrite <- Zlt_Qlt in Hlt. lia. }
  unfold py_round.
  destruct (x - inject_Z (Qfloor x) ?= 0.5) eqn:Hc.
  - apply Qeq_alt in Hc.
    destruct (Z.even (Qfloor x)); [lia|].
    split; [lia|]. apply Hstep. rewrite Hc. reflexivity.
  - lia.
  - apply Qgt_alt in Hc.
    split; [lia|]. apply Hstep. lra.
Qed.

Lemma py_round_inject_Z (n : Z) : py_round (inject_Z n) = n.
Proof.
  unfold py_round. rewrite Qfloor_Z.
  assert (Hc : (inject_Z n - inject_Z n ?= 0.5) = Lt).
  { apply Qlt_alt. unfold Qminus. rewrite Qplus_opp_r. reflexivity. }
  rewrite Hc. reflexivity.
Qed.

(** ** The score is the rounded sum of the four contributions *)

Lemma score_decomposition self price_data funding_data :
  calculate_sentiment_score self price_data funding_data =
    btc_liqs ← getitem (recent_liquidations self) "bitcoin";
    _ ← getitem (recent_liquidations self) "ethereum";
    b ← calculate_change_from_643am self (price (bitcoin price_data)) "bitcoin";
    e ← calculate_change_from_643am self (price (ethereum price_data)) "ethereum";
    Ok (py_round (liquidation_component btc_liqs + funding_component funding_data
                  + momentum_component price_data + reference_component b e)).
Proof.
  unfold calculate_sentiment_score.
  destruct (getitem (recent_liquidations self) "bitcoin") as [btc_liqs|]; [|done].
  destruct (getitem (recent_liquidations self) "ethereum") as [eth_liqs|]; [|done].
  cbn [mbind result_bind].
  destruct (calculate_change_from_643am self _ "bitcoin") as [b|]; [|done].
  destruct (calculate_change_from_643am self _ "ethereum") as [e|]; [|done].
  cbn [mbind result_bind]. f_equal. apply py_round_proper.
  unfold liquidation_component, funding_component, momentum_component,
    reference_component, avg_funding.
  destruct btc_liqs as [|l0 ls];
    [|destruct (0 <? _ + _)%Z];
    (destruct (Qgtb _ 0.02); [|destruct (Qltb _ 0.01)]);
    destruct b, e; ring.
Qed.

(** ** Bounds of the contributions *)

Lemma count_side_nonneg tag liqs : (0 ≤ count_side tag liqs)%Z.
Proof. unfold count_side. lia. Qed.

Lemma count_side_all tag liqs :
  Forall (λ liq, side liq = tag) liqs →
  count_side tag liqs = Z.of_nat (length liqs).
Proof.
  intros Hall. unfold count_side. f_equal. f_equal.
  induction Hall as [|liq liqs Hliq _ IH]; [done|].
  rewrite filter_cons_True by done. by rewrite IH.
Qed.

Lemma count_side_none tag tag' liqs :
  tag ≠ tag' →
  Forall (λ liq, side liq = tag) liqs →
  count_side tag' liqs = 0%Z.
Proof.
  intros Hne Hall. unfold count_side.
  induction Hall as [|liq liqs Hliq _ IH]; [done|].
  rewrite filter_cons_False by congruence. exact IH.
Qed.

(** The ratio of the short count to the total, when there is a total. *)
Lemma liq_ratio_range (long_liqs short_liqs : Z) :
  (0 ≤ long_liqs)%Z → (0 ≤ short_liqs)%Z → (0 < long_liqs + short_liqs)%Z →
  0 <= inject_Z short_liqs / inject_Z (long_liqs + short_liqs) <= 1.
Proof.
  intros Hl Hs Hpos.
  assert (Hden : 0 < inject_Z (long_liqs + short_liqs))
    by (change 0 with (inject_Z 0); rewrite <- Zlt_Qlt; lia).
  assert (Hnum : 0 <= inject_Z short_liqs)
    by (change 0 with (inject_Z 0); rewrite <- Zle_Qle; lia).
  assert (Hle : inject_Z short_liqs <= inject_Z (long_liqs + short_liqs))
    by (rewrite <- Zle_Qle; lia).
  split.
  - apply Qle_shift_div_l; [done|]. lra.
  - apply Qle_shift_div_r; [done|]. lra.
Qed.

Lemma liquidation_component_unfold btc_liqs :
  (0 < count_side "SELL" btc_liqs + count_side "BUY" btc_liqs)%Z →
  liquidation_component btc_liqs =
    (inject_Z (count_side "BUY" btc_liqs)
     / inject_Z (count_side "SELL" btc_liqs + count_side "BUY" btc_liqs) - 0.5) * 60.
Proof.
  intros Hpos. unfold liquidation_component.
  destruct btc_liqs as [|l0 ls]; [done|].
  apply Z.ltb_lt in Hpos. by rewrite Hpos.
Qed.

Lemma liquidation_component_no_total btc_liqs :
  (count_side "SELL" btc_liqs + count_side "BUY" btc_liqs = 0)%Z →
  liquidation_component btc_liqs = 0.
Proof.
  intros Hz. unfold liquidation_component.
  destruct btc_liqs as [|l0 ls]; [done|].
  by rewrite Hz.
Qed.

Lemma liquidation_component_range btc_liqs :
  -30 <= liquidation_component btc_liqs <= 30.
Proof.
  pose proof (count_side_nonneg "SELL" btc_liqs) as Hl.
  pose proof (count_side_nonneg "BUY" btc_liqs) as Hs.
  destruct (Z.eq_dec (count_side "SELL" btc_liqs + count_side "BUY" btc_liqs)%Z 0%Z)
    as [Hz|Hnz].
  - rewrite liquidation_component_no_total by done. lra.
  - rewrite liquidation_component_unfold by lia.
    pose proof (liq_ratio_range _ _ Hl Hs ltac:(lia)) as [H0 H1].
    lra.
Qed.

Lemma funding_component_range funding_data :
  -25 <= funding_component funding_data <= 25.
Proof.
  unfold funding_component.
  destruct (Qgtb _ 0.02) eqn:Hhi; [lra|].
  destruct (Qltb _ 0.01) eqn:Hlo; [lra|].
  apply Qgtb_false in Hhi. apply Qltb_false in Hlo. lra.
Qed.

Lemma momentum_component_range price_data :
  -25 <= momentum_component price_data <= 25.
Proof.
  unfold momentum_component.
  destruct (Qgtb _ 0), (Qgtb _ 0); lra.
Qed.

Lemma reference_component_range b e :
  -20 <= reference_component b e <= 20.
Proof.
  unfold reference_component.
  destruct b, e; try lra. destruct (Qgtb _ 0); lra.
Qed.

(** ** Liquidation skew *)

(** The values of the skew contribution, read off its definition. *)
Lemma liquidation_component_values (btc_liqs : list LiquidationEvent) :
  let long_liqs := count_side "SELL" btc_liqs in
  let short_liqs := count_side "BUY" btc_liqs in
  -30 <= liquidation_component btc_liqs <= 30
  ∧ ((0 < long_liqs + short_liqs)%Z →
       liquidation_component btc_liqs
       = (inject_Z short_liqs / inject_Z (long_liqs + short_liqs) - 0.5) * 60)
  ∧ (btc_liqs ≠ [] → Forall (λ liq, side liq = "SELL") btc_liqs →
       liquidation_component btc_liqs == -30)
  ∧ (btc_liqs ≠ [] → Forall (λ liq, side liq = "BUY") btc_liqs →
       liquidation_component btc_liqs == 30)
  ∧ (long_liqs = short_liqs → liquidation_component btc_liqs == 0)
  ∧ liquidation_component [] = 0.
Proof.
  intros long_liqs short_liqs.
  assert (Hlen : btc_liqs ≠ [] → (0 < Z.of_nat (length btc_liqs))%Z).
  { destruct btc_liqs; [done|]. cbn [length]. lia. }
  split; [apply liquidation_component_range|].
  split; [apply liquidation_component_unfold|].
  split; [|split; [|split; [|done]]].
  - intros Hne Hall.
    assert (Hl : long_liqs = Z.of_nat (length btc_liqs))
      by (apply count_side_all, Hall).
    assert (Hs : short_liqs = 0%Z)
      by (apply (count_side_none "SELL"); [done|apply Hall]).
    rewrite liquidation_component_unfold; fold long_liqs short_liqs.
    + rewrite Hs. unfold Qdiv. rewrite Qmult_0_l. reflexivity.
    + specialize (Hlen Hne). lia.
  - intros Hne Hall.
    assert (Hs : short_liqs = Z.of_nat (length btc_liqs))
      by (apply count_side_all, Hall).
    assert (Hl : long_liqs = 0%Z)
      by (apply (count_side_none "BUY"); [done|apply Hall]).
    specialize (Hlen Hne).
    rewrite liquidation_component_unfold; fold long_liqs short_liqs; [|lia].
    rewrite Hl, Z.add_0_l.
    assert (Hnz : ¬ inject_Z short_liqs == 0).
    { change 0 with (inject_Z 0). rewrite inject_Z_injective. lia. }
    unfold Qdiv. rewrite Qmult_inv_r by exact Hnz. reflexivity.
  - intros Heq.
    pose proof (count_side_nonneg "BUY" btc_liqs) as Hs. fold short_liqs in Hs.
    destruct (Z.eq_dec short_liqs 0%Z) as [Hz|Hnz].
    + rewrite liquidation_component_no_total; [reflexivity|].
      fold long_liqs short_liqs. lia.
    + rewrite liquidation_component_unfold; fold long_liqs short_liqs; [|lia].
      rewrite Heq.
      assert (Hq : ¬ inject_Z short_liqs == 0).
      { change 0 with (inject_Z 0). rewrite inject_Z_injective. lia. }
      rewrite inject_Z_plus. field. lra.
Qed.

(** The score once the first three contributions are known up to [==]. *)
Lemma score_with_contributions self price_data funding_data btc_liqs (l f m : Q) :
  recent_liquidations self !! "bitcoin" = Some btc_liqs →
  is_Some (recent_liquidations self !! "ethereum") →
  liquidation_component btc_liqs == l →
  funding_component funding_data == f →
  momentum_component price_data == m →
  calculate_sentiment_score self price_data funding_data
  = (b ← calculate_change_from_643am self (price (bitcoin price_data)) "bitcoin";
     e ← calculate_change_from_643am self (price (ethereum price_data)) "ethereum";
     Ok (py_round (l + f + m + reference_component b e))).
Proof.
  intros Hb [eth He] Hl Hf Hm.
  rewrite score_decomposition. unfold getitem. rewrite Hb, He.
  cbn [mbind result_bind].
  destruct (calculate_change_from_643am self _ "bitcoin") as [b|]; [|done].
  destruct (calculate_change_from_643am self _ "ethereum") as [e|]; [|done].
  cbn [mbind result_bind]. f_equal. apply py_round_proper.
  by rewrite Hl, Hf, Hm.
Qed.

(** C7. [calculate_sentiment_score] returns the rounded sum of the
    liquidation-skew contribution of the bitcoin history and the other three
    contributions.  The skew contribution lies in [-30, 30].  When the
    history has long or short liquidations it is
    [(short / (long + short) - 0.5) * 60]; it is -30 when every event of a
    non-empty history is a long liquidation (side SELL), +30 when every
    event is a short liquidation (side BUY), 0 when the two counts are
    equal, and 0 for the empty history, and the score is then the rounded
    sum with -30, 30 or 0 in its place. *)
Theorem liquidation_skew_contribution self price_data funding_data btc_liqs :
  recent_liquidations self !! "bitcoin" = Some btc_liqs →
  is_Some (recent_liquidations self !! "ethereum") →
  let long_liqs := count_side "SELL" btc_liqs in
  let short_liqs := count_side "BUY" btc_liqs in
  let skew := liquidation_component btc_liqs in
  let score_with (contribution : Q) : result Z :=
    b ← calculate_change_from_643am self (price (bitcoin price_data)) "bitcoin";
    e ← calculate_change_from_643am self (price (ethereum price_data)) "ethereum";
    Ok (py_round (contribution + funding_component funding_data
                  + momentum_component price_data + reference_component b e)) in
  calculate_sentiment_score self price_data funding_data = score_with skew
  ∧ -30 <= skew <= 30
  ∧ ((0 < long_liqs + short_liqs)%Z →
       skew = (inject_Z short_liqs / inject_Z (long_liqs + short_liqs) - 0.5) * 60)
  ∧ (btc_liqs ≠ [] → Forall (λ liq, side liq = "SELL") btc_liqs →
       skew == -30
       ∧ calculate_sentiment_score self price_data funding_data = score_with (-30))
  ∧ (btc_liqs ≠ [] → Forall (λ liq, side liq = "BUY") btc_liqs →
       skew == 30
       ∧ calculate_sentiment_score self price_data funding_data = score_with 30)
  ∧ (long_liqs = short_liqs →
       skew == 0
       ∧ calculate_sentiment_score self price_data funding_data = score_with 0)
  ∧ (btc_liqs = [] →
       skew = 0
       ∧ calculate_sentiment_score self price_data funding_data = score_with 0).
Proof.
  intros Hb He long_liqs short_liqs skew score_with.
  destruct (liquidation_component_values btc_liqs)
    as (Hrange & Hformula & Hlong & Hshort & Hbalanced & Hempty).
  assert (Hscore : ∀ l : Q,
            skew == l →
            calculate_sentiment_score self price_data funding_data = score_with l).
  { intros l Hl. by apply (score_with_contributions _ _ _ btc_liqs). }
  split; [by apply Hscore|]. split; [exact Hrange|]. split; [exact Hformula|].
  split; [|split; [|split]].
  - intros Hne Hall. split; [by apply Hlong|]. apply Hscore. by apply Hlong.
  - intros Hne Hall. split; [by apply Hshort|]. apply Hscore. by apply Hshort.
  - intros Heq. split; [by apply Hbalanced|]. apply Hscore. by apply Hbalanced.
  - intros Hnil.
    assert (Hz : skew = 0) by (subst skew; rewrite Hnil; exact Hempty).
    split; [exact Hz|]. apply Hscore. by rewrite Hz.
Qed.

Lemma liquidation_skew_contribution_witness :
  calculate_sentiment_score
    (set_liquidations
       {[ "bitcoin" := [sample_event "BTCUSDT" "SELL" 3 50000]; "ethereum" := [] ]}
       (init ∅))
    sample_prices sample_funding
  = Ok (-33)%Z
  ∧ calculate_sentiment_score
      (set_liquidations
         {[ "bitcoin" := [sample_event "BTCUSDT" "BUY" 3 50000]; "ethereum" := [] ]}
         (init ∅))
      sample_prices sample_funding
    = Ok 27%Z.
Proof.
  split.
  - destruct (liquidation_skew_contribution
                (set_liquidations
                   {[ "bitcoin" := [sample_event "BTCUSDT" "SELL" 3 50000];
                      "ethereum" := [] ]} (init ∅))
                sample_prices sample_funding
                [sample_event "BTCUSDT" "SELL" 3 50000])
      as (_ & _ & _ & Hlong & _); [reflexivity|vm_compute; eauto|].
    destruct Hlong as [_ ->]; [done|repeat constructor|]. reflexivity.
  - destruct (liquidation_skew_contribution
                (set_liquidations
                   {[ "bitcoin" := [sample_event "BTCUSDT" "BUY" 3 50000];
                      "ethereum" := [] ]} (init ∅))
                sample_prices sample_funding
                [sample_event "BTCUSDT" "BUY" 3 50000])
      as (_ & _ & _ & _ & Hshort & _); [reflexivity|vm_compute; eauto|].
    destruct Hshort as [_ ->]; [done|repeat constructor|]. reflexivity.
Defined.

(** ** The reference deviation *)

Lemma change_uncaptured self current_price crypto :
  uncaptured self crypto →
  calculate_change_from_643am self current_price crypto = Ok None.
Proof.
  unfold calculate_change_from_643am. by intros [-> | ->].
Qed.

Lemma change_captured self current_price crypto ref_price :
  reference_643am self !! crypto = Some (RFloat ref_price) →
  ¬ ref_price == 0 →
  calculate_change_from_643am self current_price crypto
  = Ok (Some (((current_price - ref_price) / ref_price) * 100)).
Proof.
  intros Href Hnz. unfold calculate_change_from_643am. rewrite Href.
  destruct (Qeq_bool ref_price 0) eqn:Hz; [|done].
  apply Qeq_bool_eq in Hz. contradiction.
Qed.

Lemma change_zero_anchor self current_price crypto ref_price :
  reference_643am self !! crypto = Some (RFloat ref_price) →
  ref_price == 0 →
  calculate_change_from_643am self current_price crypto = Raise ZeroDivisionError.
Proof.
  intros Href Hz. unfold calculate_change_from_643am. rewrite Href.
  apply Qeq_eq_bool in Hz. by rewrite Hz.
Qed.

Lemma change_usable self current_price crypto :
  anchor_usable self crypto →
  ∃ change, calculate_change_from_643am self current_price crypto = Ok change.
Proof.
  unfold anchor_usable.
  destruct (reference_643am self !! crypto) as [[|ref_price|t]|] eqn:Href;
    intros Hok; try done.
  - exists None. apply change_uncaptured. by left.
  - eexists. by apply change_captured.
  - exists None. apply change_uncaptured. by right.
Qed.

(** ** The score *)

Lemma getitem_Ok {V} (d : gmap string V) k v : getitem d k = Ok v ↔ d !! k = Some v.
Proof. unfold getitem. destruct (d !! k); split; congruence. Qed.

Lemma score_inversion self price_data funding_data score :
  calculate_sentiment_score self price_data funding_data = Ok score →
  ∃ btc_liqs b e,
    recent_liquidations self !! "bitcoin" = Some btc_liqs
    ∧ calculate_change_from_643am self (price (bitcoin price_data)) "bitcoin" = Ok b
    ∧ calculate_change_from_643am self (price (ethereum price_data)) "ethereum" = Ok e
    ∧ score = py_round (liquidation_component btc_liqs
                        + funding_component funding_data
                        + momentum_component price_data
                        + reference_component b e).
Proof.
  rewrite score_decomposition.
  destruct (getitem (recent_liquidations self) "bitcoin") as [btc_liqs|] eqn:Hb; [|done].
  destruct (getitem (recent_liquidations self) "ethereum") as [eth_liqs|]; [|done].
  cbn [mbind result_bind].
  destruct (calculate_change_from_643am self _ "bitcoin") as [b|]; [|done].
  destruct (calculate_change_from_643am self _ "ethereum") as [e|]; [|done].
  cbn [mbind result_bind]. intros [= <-].
  exists btc_liqs, b, e. by rewrite <- getitem_Ok.
Qed.

Lemma score_returns self price_data funding_data :
  has_histories self → anchor_usable self "bitcoin" → anchor_usable self "ethereum" →
  ∃ score, calculate_sentiment_score self price_data funding_data = Ok score.
Proof.
  intros [[btc_liqs Hb] [eth_liqs He]] Hub Hue.
  rewrite score_decomposition. unfold getitem. rewrite Hb, He.
  destruct (change_usable self (price (bitcoin price_data)) _ Hub) as [b ->].
  destruct (change_usable self (price (ethereum price_data)) _ Hue) as [e ->].
  cbn [mbind result_bind]. eauto.
Qed.

(** The sum of the four contributions, hence the score, stays within the sum
    of the weights. *)
Lemma contributions_within_100 btc_liqs funding_data price_data b e :
  (-100 ≤ py_round (liquidation_component btc_liqs + funding_component funding_data
                    + momentum_component price_data + reference_component b e)
   ≤ 100)%Z.
Proof.
  pose proof (liquidation_component_range btc_liqs).
  pose proof (funding_component_range funding_data).
  pose proof (momentum_component_range price_data).
  pose proof (reference_component_range b e).
  apply py_round_between; change (inject_Z (-100)) with (-100);
    change (inject_Z 100) with 100; lra.
Qed.

(** C8. Every score that [calculate_sentiment_score] returns is an integer
    in [-105, 105], and it is the rounded plain sum of the four
    contributions: nothing clamps it.  A score is returned whenever both
    histories exist and no anchor price is zero.  The funding contribution
    is within 25 of zero on every branch; for an average funding between
    0.01 and 0.02 it is the interpolation [(0.015 - avg) * 1250]. *)
Theorem sentiment_score_bounded self price_data funding_data :
  (∀ score,
     calculate_sentiment_score self price_data funding_data = Ok score →
     (-105 ≤ score ≤ 105)%Z
     ∧ ∃ btc_liqs b e,
         recent_liquidations self !! "bitcoin" = Some btc_liqs
         ∧ calculate_change_from_643am self (price (bitcoin price_data)) "bitcoin" = Ok b
         ∧ calculate_change_from_643am self (price (ethereum price_data)) "ethereum" = Ok e
         ∧ score = py_round (liquidation_component btc_liqs
                             + funding_component funding_data
                             + momentum_component price_data
                             + reference_component b e))
  ∧ (has_histories self → anchor_usable self "bitcoin" → anchor_usable self "ethereum" →
     ∃ score, calculate_sentiment_score self price_data funding_data = Ok score)
  ∧ -25 <= funding_component funding_data <= 25
  ∧ (0.01 <= avg_funding funding_data → avg_funding funding_data <= 0.02 →
     funding_component funding_data = (0.015 - avg_funding funding_data) * 1250).
Proof.
  split; [|split; [|split]].
  - intros score Hscore.
    destruct (score_inversion _ _ _ _ Hscore) as (btc_liqs & b & e & Hb & Hcb & Hce & ->).
    split; [|by exists btc_liqs, b, e].
    pose proof (contributions_within_100 btc_liqs funding_data price_data b e). lia.
  - apply score_returns.
  - apply funding_component_range.
  - intros Hlo Hhi. unfold funding_component.
    apply Qgtb_false in Hhi. apply Qltb_false in Hlo. by rewrite Hhi, Hlo.
Qed.

Lemma sentiment_score_bounded_witness :
  calculate_sentiment_score (init ∅) sample_prices sample_funding = Ok (-3)%Z
  ∧ (-105 ≤ -3 ≤ 105)%Z
  ∧ (∃ score, calculate_sentiment_score (init ∅) sample_prices sample_funding = Ok score)
  ∧ funding_component sample_funding = (0.015 - avg_funding sample_funding) * 1250.
Proof.
  destruct (sentiment_score_bounded (init ∅) sample_prices sample_funding)
    as (Hrange & Hreturns & _ & Hinterp).
  split; [reflexivity|]. split; [|split].
  - apply Hrange. reflexivity.
  - apply Hreturns.
    + split; vm_compute; eauto.
    + vm_compute. exact I.
    + vm_compute. exact I.
  - apply Hinterp; vm_compute; discriminate.
Defined.

(** C1. With bitcoin at 60000 (+2% over 24h), ethereum at 3000 (-1%),
    funding averages 0.005 and 0.03, an empty bitcoin history and no anchor
    captured, [calculate_sentiment_score] returns -3, whatever the other
    fields and the ethereum history hold. *)
Theorem end_to_end_score self eth_liqs
    (vol_b cap_b vol_e cap_e : Q) (ts_b ts_e : string) (fb fe : FundingData) :
  recent_liquidations self !! "bitcoin" = Some [] →
  recent_liquidations self !! "ethereum" = Some eth_liqs →
  uncaptured self "bitcoin" →
  uncaptured self "ethereum" →
  average fb = Some 0.005 →
  average fe = Some 0.03 →
  calculate_sentiment_score self
    (mkByCrypto (mkPriceData 60000 2 vol_b cap_b ts_b)
                (mkPriceData 3000 (-1) vol_e cap_e ts_e))
    (mkByCrypto fb fe)
  = Ok (-3)%Z.
Proof.
  intros Hb He Hub Hue Hfb Hfe.
  unfold calculate_sentiment_score, getitem. rewrite Hb, He.
  cbn [mbind result_bind bitcoin ethereum price change_24h].
  rewrite !change_uncaptured by done.
  rewrite Hfb, Hfe. reflexivity.
Qed.

Lemma end_to_end_score_witness :
  calculate_sentiment_score (init ∅)
    (mkByCrypto (mkPriceData 60000 2 0 0 "") (mkPriceData 3000 (-1) 0 0 ""))
    (mkByCrypto (mkFundingData (Some 0.005) None None (Some 0.005))
                (mkFundingData (Some 0.03) None None (Some 0.03)))
  = Ok (-3)%Z.
Proof.
  apply (end_to_end_score (init ∅) []); try reflexivity; left; reflexivity.
Defined.

(** C10. The score does not depend on the ethereum liquidation history:
    two fetchers with the same anchor and the same bitcoin history, each
    holding some ethereum history, get the same result for the same price
    and funding data. *)
Theorem score_ignores_ethereum_history self1 self2 price_data funding_data :
  reference_643am self1 = reference_643am self2 →
  recent_liquidations self1 !! "bitcoin" = recent_liquidations self2 !! "bitcoin" →
  is_Some (recent_liquidations self1 !! "ethereum") →
  is_Some (recent_liquidations self2 !! "ethereum") →
  calculate_sentiment_score self1 price_data funding_data
  = calculate_sentiment_score self2 price_data funding_data.
Proof.
  intros Href Hbtc [h1 H1] [h2 H2].
  rewrite !score_decomposition.
  unfold getitem, calculate_change_from_643am.
  rewrite Href, Hbtc, H1, H2.
  by destruct (recent_liquidations self2 !! "bitcoin").
Qed.

Lemma score_ignores_ethereum_history_witness :
  calculate_sentiment_score
    (set_liquidations
       {[ "bitcoin" := []; "ethereum" := [sample_event "ETHUSDT" "SELL" 100 3000] ]}
       (init ∅))
    sample_prices sample_funding
  = calculate_sentiment_score (init ∅) sample_prices sample_funding.
Proof.
  apply score_ignores_ethereum_history; try reflexivity; vm_compute; eauto.
Defined.

(** C9. [calculate_change_from_643am] returns [None] for an instrument
    without a captured anchor price; with an anchor price it returns
    [(current - anchor) / anchor * 100] (a zero anchor price raises
    [ZeroDivisionError]).  After a capture at 6:43 with bitcoin at 50000, a
    current price of 55000 gives a deviation of 10. *)
Theorem percent_deviation self current_price crypto :
  (uncaptured self crypto →
     calculate_change_from_643am self current_price crypto = Ok None)
  ∧ (∀ ref_price,
       reference_643am self !! crypto = Some (RFloat ref_price) →
       ¬ ref_price == 0 →
       calculate_change_from_643am self current_price crypto
       = Ok (Some (((current_price - ref_price) / ref_price) * 100)))
  ∧ (∀ ref_price,
       reference_643am self !! crypto = Some (RFloat ref_price) →
       ref_price == 0 →
       calculate_change_from_643am self current_price crypto = Raise ZeroDivisionError)
  ∧ (∀ price_data t io_ok,
       hour t = 6%Z → minute t = 43%Z →
       price (bitcoin price_data) = 50000 →
       ∃ change,
         calculate_change_from_643am
           (capture_643am_price self price_data t io_ok) 55000 "bitcoin"
         = Ok (Some change)
         ∧ change == 10).
Proof.
  split; [apply change_uncaptured|].
  split; [intros; by apply change_captured|].
  split; [intros; by eapply change_zero_anchor|].
  intros price_data t io_ok Hh Hm Hp.
  eexists. split.
  - apply change_captured with (ref_price := 50000); [|done].
    unfold capture_643am_price. rewrite Hh, Hm. cbn [Z.eqb Pos.eqb andb].
    unfold save_reference_prices, write_file.
    destruct io_ok; cbn [reference_643am set_files set_reference];
      rewrite lookup_insert_eq; by rewrite Hp.
  - reflexivity.
Qed.

Lemma percent_deviation_witness :
  calculate_change_from_643am (init ∅) 55000 "bitcoin" = Ok None
  ∧ ∃ change,
      calculate_change_from_643am
        (capture_643am_price (init ∅)
           (mkByCrypto (mkPriceData 50000 2 0 0 "") (mkPriceData 3000 (-1) 0 0 ""))
           (sample_time 6 43 17) true)
        55000 "bitcoin"
      = Ok (Some change)
      ∧ change == 10.
Proof.
  destruct (percent_deviation (init ∅) 55000 "bitcoin") as (Hnone & _ & _ & Hcap).
  split.
  - apply Hnone. left. reflexivity.
  - apply Hcap; reflexivity.
Defined.

(** ** The capture rule *)

Lemma capture_outside_643 self price_data t io_ok :
  ¬ (hour t = 6%Z ∧ minute t = 43%Z) →
  capture_643am_price self price_data t io_ok = self.
Proof.
  intros Hno. unfold capture_643am_price.
  destruct (hour t =? 6)%Z eqn:Hh; [|done].
  destruct (minute t =? 43)%Z eqn:Hm; [|done].
  apply Z.eqb_eq in Hh, Hm. tauto.
Qed.

Lemma capture_keeps_liquidations self price_data t io_ok :
  recent_liquidations (capture_643am_price self price_data t io_ok)
  = recent_liquidations self.
Proof.
  unfold capture_643am_price, save_reference_prices, write_file.
  destruct (_ && _); [|done]. by destruct io_ok.
Qed.

(** C6. [capture_643am_price] replaces the anchor by the current bitcoin
    and ethereum prices and the instant read, and writes it to
    [reference_prices.json] (when the write succeeds), exactly when the
    local time has hour 6 and minute 43, whatever its seconds; at any other
    time the fetcher and its files are left as they were. *)
Theorem capture_rule self price_data t io_ok :
  let captured := capture_643am_price self price_data t io_ok in
  let anchor : gmap string ref_value :=
    {[ "bitcoin" := RFloat (price (bitcoin price_data));
       "ethereum" := RFloat (price (ethereum price_data));
       "timestamp" := RStamp t ]} in
  (hour t = 6%Z → minute t = 43%Z →
     reference_643am captured = anchor
     ∧ recent_liquidations captured = recent_liquidations self
     ∧ files captured
       = if io_ok then <["reference_prices.json" := ReferenceBlob anchor]> (files self)
         else files self)
  ∧ (¬ (hour t = 6%Z ∧ minute t = 43%Z) → captured = self).
Proof.
  intros captured anchor. split.
  - intros Hh Hm. subst captured.
    unfold capture_643am_price. rewrite Hh, Hm. cbn [Z.eqb Pos.eqb andb].
    unfold save_reference_prices, write_file. by destruct io_ok.
  - apply capture_outside_643.
Qed.

Lemma capture_rule_witness :
  reference_643am
    (capture_643am_price (init ∅) sample_prices (sample_time 6 43 59) true)
  = {[ "bitcoin" := RFloat 60000; "ethereum" := RFloat 3000;
       "timestamp" := RStamp (sample_time 6 43 59) ]}
  ∧ capture_643am_price (init ∅) sample_prices (sample_time 6 42 59) true = init ∅
  ∧ capture_643am_price (init ∅) sample_prices (sample_time 6 44 0) true = init ∅.
Proof.
  split; [|split].
  - destruct (capture_rule (init ∅) sample_prices (sample_time 6 43 59) true)
      as [Hat _].
    apply Hat; reflexivity.
  - destruct (capture_rule (init ∅) sample_prices (sample_time 6 42 59) true)
      as [_ Hout].
    apply Hout. intros [_ Hm]. discriminate Hm.
  - destruct (capture_rule (init ∅) sample_prices (sample_time 6 44 0) true)
      as [_ Hout].
    apply Hout. intros [_ Hm]. discriminate Hm.
Defined.

(** ** The bounded histories *)

Lemma slice_last_length {A} (n : nat) (l : list A) :
  (length (slice_last n l) ≤ n)%nat.
Proof. unfold slice_last. rewrite length_drop. lia. Qed.

Lemma slice_last_full {A} (l : list A) (x : A) :
  length l = 20%nat → slice_last 20 (l ++ [x]) = tail l ++ [x].
Proof.
  intros Hlen. unfold slice_last. rewrite length_app, Hlen. cbn [length Nat.add].
  change (20 + 1 - 20)%nat with 1%nat.
  destruct l as [|y l]; [discriminate|]. reflexivity.
Qed.

(** What [process_liquidation] leaves under the key of a recognised symbol. *)
Lemma process_liquidation_recorded self liquidation crypto history :
  crypto_map !! symbol liquidation = Some crypto →
  recent_liquidations self !! crypto = Some history →
  process_liquidation self liquidation
  = (set_liquidations
       (<[crypto :=
            if (20 <? length (history ++ [liquidation]))%nat
            then slice_last 20 (history ++ [liquidation])
            else history ++ [liquidation]]> (recent_liquidations self)) self,
     Ok ()).
Proof.
  intros Hsym Hhist. unfold process_liquidation, getitem.
  by rewrite Hsym, Hhist.
Qed.

Lemma process_liquidation_ignored self liquidation :
  crypto_map !! symbol liquidation = None →
  process_liquidation self liquidation = (self, Ok ()).
Proof. intros Hsym. unfold process_liquidation. by rewrite Hsym. Qed.

Lemma process_liquidation_bounded self liquidation :
  histories_bounded self →
  histories_bounded (fst (process_liquidation self liquidation)).
Proof.
  intros Hinv. unfold process_liquidation.
  destruct (crypto_map !! symbol liquidation) as [crypto|]; [|done].
  unfold getitem.
  destruct (recent_liquidations self !! crypto) as [history|] eqn:Hhist; [|done].
  cbn [fst]. intros k h. cbn [recent_liquidations set_liquidations].
  rewrite lookup_insert. case_decide as Hk.
  - intros [= <-].
    destruct (20 <? _)%nat eqn:Hlt.
    + apply slice_last_length.
    + apply Nat.ltb_ge in Hlt. exact Hlt.
  - apply Hinv.
Qed.

Lemma on_message_bounded strftime_HMS self msg :
  histories_bounded self → histories_bounded (on_message strftime_HMS self msg).
Proof.
  intros Hinv. destruct msg as [| | |sym sd q p T]; try done.
  cbn [on_message]. destruct (strftime_HMS T); [|done].
  destruct (Qgtb _ _); [|done].
  by apply process_liquidation_bounded.
Qed.

Lemma fetch_all_data_keeps_liquidations self inp :
  recent_liquidations (fst (fetch_all_data self inp)) = recent_liquidations self.
Proof.
  unfold fetch_all_data.
  destruct (get_price_data _ _ _) as [price_data|]; [|done].
  destruct (get_funding_rates _ _ _ _ _) as [funding_data|]; [|done].
  cbn [fst]. apply capture_keeps_liquidations.
Qed.

Lemma scheduled_fetch_keeps_liquidations self inp :
  recent_liquidations (scheduled_fetch self inp) = recent_liquidations self.
Proof.
  pose proof (fetch_all_data_keeps_liquidations self inp) as Hkeep.
  unfold scheduled_fetch.
  destruct (fetch_all_data self inp) as [self' [[data|]|e]]; cbn [fst] in Hkeep;
    try done.
  unfold save_data_to_json, write_file. by destruct (market_io_ok inp).
Qed.

Lemma run_bounded strftime_HMS self op :
  histories_bounded self → histories_bounded (run strftime_HMS self op).
Proof.
  intros Hinv. destruct op as [msg|inp]; cbn [run].
  - by apply on_message_bounded.
  - unfold histories_bounded. by rewrite scheduled_fetch_keeps_liquidations.
Qed.

Lemma init_liquidations disk :
  recent_liquidations (init disk) = {[ "bitcoin" := []; "ethereum" := [] ]}.
Proof.
  unfold init, load_reference_prices. cbn [files].
  by destruct (disk !! "reference_prices.json") as [[r|m]|].
Qed.

Lemma init_bounded disk : histories_bounded (init disk).
Proof.
  intros k h. rewrite init_liquidations.
  rewrite lookup_insert. case_decide; [intros [= <-]; cbn; lia|].
  rewrite lookup_singleton. case_decide; [intros [= <-]; cbn; lia|done].
Qed.

(** C4. No history ever holds more than 20 events: [process_liquidation]
    preserves the bound, and so does every message and every poll from the
    initial fetcher on.  Recording into a history of 20 drops its oldest
    event and keeps the other 19 in order, followed by the new one; below
    20 the event is simply appended. *)
Theorem history_capacity :
  (∀ self liquidation,
     histories_bounded self →
     histories_bounded (fst (process_liquidation self liquidation)))
  ∧ (∀ self liquidation crypto history,
       crypto_map !! symbol liquidation = Some crypto →
       recent_liquidations self !! crypto = Some history →
       length history = 20%nat →
       recent_liquidations (fst (process_liquidation self liquidation)) !! crypto
       = Some (tail history ++ [liquidation]))
  ∧ (∀ self liquidation crypto history,
       crypto_map !! symbol liquidation = Some crypto →
       recent_liquidations self !! crypto = Some history →
       (length history < 20)%nat →
       recent_liquidations (fst (process_liquidation self liquidation)) !! crypto
       = Some (history ++ [liquidation]))
  ∧ (∀ strftime_HMS disk ops,
       histories_bounded (foldl (run strftime_HMS) (init disk) ops)).
Proof.
  split; [apply process_liquidation_bounded|].
  split; [|split].
  - intros self liquidation crypto history Hsym Hhist Hlen.
    rewrite (process_liquidation_recorded _ _ _ _ Hsym Hhist).
    cbn [fst recent_liquidations set_liquidations].
    rewrite lookup_insert_eq, length_app, Hlen. cbn [length Nat.add].
    change (20 <? 20 + 1)%nat with true. cbn iota.
    by rewrite slice_last_full.
  - intros self liquidation crypto history Hsym Hhist Hlen.
    rewrite (process_liquidation_recorded _ _ _ _ Hsym Hhist).
    cbn [fst recent_liquidations set_liquidations].
    rewrite lookup_insert_eq.
    destruct (20 <? _)%nat eqn:Hlt; [|done].
    apply Nat.ltb_lt in Hlt. rewrite length_app in Hlt. cbn [length] in Hlt. lia.
  - intros strftime_HMS disk ops.
    generalize (init_bounded disk). generalize (init disk).
    induction ops as [|op ops IH]; intros self Hinv; [done|].
    cbn [foldl]. apply IH. by apply run_bounded.
Qed.

Lemma history_capacity_witness :
  recent_liquidations
    (fst (process_liquidation
            (set_liquidations {[ "bitcoin" := sample_history; "ethereum" := [] ]} (init ∅))
            (sample_event "BTCUSDT" "BUY" 21 200000)))
    !! "bitcoin"
  = Some (tail sample_history ++ [sample_event "BTCUSDT" "BUY" 21 200000]).
Proof.
  destruct history_capacity as (_ & Hfifo & _).
  apply Hfifo; reflexivity.
Defined.

(** ** Classification of liquidation messages *)

Lemma crypto_map_lookup sym crypto :
  crypto_map !! sym = Some crypto ↔
  (sym = "BTCUSDT" ∧ crypto = "bitcoin") ∨ (sym = "ETHUSDT" ∧ crypto = "ethereum").
Proof.
  unfold crypto_map. rewrite lookup_insert. case_decide as Hb.
  - subst sym. split; [intros [= <-]; by left|].
    intros [[_ ->]|[? _]]; done.
  - rewrite lookup_singleton. case_decide as He.
    + subst sym. split; [intros [= <-]; by right|].
      intros [[? _]|[_ ->]]; done.
    + split; [done|]. intros [[? _]|[? _]]; congruence.
Qed.

Lemma crypto_map_unrecognised sym :
  crypto_map !! sym = None ↔ ¬ (sym = "BTCUSDT" ∨ sym = "ETHUSDT").
Proof.
  destruct (crypto_map !! sym) as [crypto|] eqn:Hsym.
  - apply crypto_map_lookup in Hsym. split; [done|]. intros Hno. exfalso. tauto.
  - split; [|done]. intros _ Hyes.
    assert (Hex : ∃ crypto, crypto_map !! sym = Some crypto).
    { destruct Hyes as [->| ->]; eexists; apply crypto_map_lookup; eauto. }
    destruct Hex as [crypto Hc]. congruence.
Qed.

Lemma slice_last_snoc {A} (n : nat) (l : list A) (x : A) :
  (0 < n)%nat → ∃ kept, slice_last n (l ++ [x]) = kept ++ [x] ∧ kept `suffix_of` l.
Proof.
  intros Hn. unfold slice_last. rewrite length_app. cbn [length].
  exists (drop (length l + 1 - n) l). split.
  - rewrite drop_app_le by lia. reflexivity.
  - apply suffix_drop.
Qed.

(** C3, as the code has it.  A well-formed order message is stored exactly
    when its symbol is BTCUSDT or ETHUSDT and its value (quantity times
    price) is strictly above 100,000: the event then becomes the newest
    entry of that instrument's history.  An order at or below 100,000
    (exactly 100,000 included) or with another symbol leaves the fetcher as
    it was, and an unrecognised symbol makes [process_liquidation] return
    normally. *)
Theorem liquidation_classification strftime_HMS self sym sd q p T t :
  strftime_HMS T = Some t →
  has_histories self →
  let liquidation := mkLiquidationEvent sym sd q p (q * p) t "Binance" in
  let self' := on_message strftime_HMS self (Order sym sd q p T) in
  (∀ crypto,
     crypto_map !! sym = Some crypto → 100000 < q * p →
     ∃ history kept,
       recent_liquidations self !! crypto = Some history
       ∧ kept `suffix_of` history
       ∧ self' = set_liquidations
                   (<[crypto := kept ++ [liquidation]]> (recent_liquidations self)) self)
  ∧ (crypto_map !! sym = None ∨ q * p <= 100000 → self' = self)
  ∧ (crypto_map !! sym = None → process_liquidation self liquidation = (self, Ok ()))
  ∧ (is_Some (crypto_map !! sym) ↔ sym = "BTCUSDT" ∨ sym = "ETHUSDT").
Proof.
  intros Hfmt [[hb Hb] [he He]] liquidation self'.
  split; [|split; [|split]].
  - intros crypto Hsym Hval.
    assert (Hhist : ∃ history, recent_liquidations self !! crypto = Some history).
    { apply crypto_map_lookup in Hsym as [[_ ->]|[_ ->]]; eauto. }
    destruct Hhist as [history Hhist].
    subst self'. cbn [on_message]. rewrite Hfmt. cbn [value].
    apply Qgtb_spec in Hval. rewrite Hval.
    rewrite (process_liquidation_recorded self _ crypto history) by done.
    cbn [fst]. fold liquidation.
    destruct (20 <? _)%nat.
    + destruct (slice_last_snoc 20 history liquidation) as (kept & -> & Hsuf); [lia|].
      by exists history, kept.
    + by exists history, history.
  - intros Hskip. subst self'. cbn [on_message]. rewrite Hfmt. cbn [value].
    destruct Hskip as [Hsym|Hval].
    + destruct (Qgtb _ _); [|done].
      by rewrite process_liquidation_ignored.
    + apply Qgtb_false in Hval. by rewrite Hval.
  - intros Hsym. by apply process_liquidation_ignored.
  - split.
    + intros [crypto Hc]. apply crypto_map_lookup in Hc. tauto.
    + intros Hyes. destruct (crypto_map !! sym) eqn:Hc; [done|].
      apply crypto_map_unrecognised in Hc. contradiction.
Qed.

Lemma liquidation_classification_witness :
  on_message sample_clock (init ∅) (Order "BTCUSDT" "SELL" 2 50000 0) = init ∅
  ∧ on_message sample_clock (init ∅) (Order "DOGEUSDT" "SELL" 2000000 1 0) = init ∅
  ∧ ∃ history kept,
      recent_liquidations (init ∅) !! "bitcoin" = Some history
      ∧ kept `suffix_of` history
      ∧ on_message sample_clock (init ∅) (Order "BTCUSDT" "SELL" 3 50000 0)
        = set_liquidations
            (<["bitcoin" := kept ++ [sample_event "BTCUSDT" "SELL" 3 50000]]>
               (recent_liquidations (init ∅)))
            (init ∅).
Proof.
  assert (Hinit : has_histories (init ∅)) by (split; vm_compute; eauto).
  split; [|split].
  - destruct (liquidation_classification sample_clock (init ∅)
                "BTCUSDT" "SELL" 2 50000 0%Z "12:00:00" eq_refl Hinit)
      as (_ & Hskip & _).
    apply Hskip. right. vm_compute. discriminate.
  - destruct (liquidation_classification sample_clock (init ∅)
                "DOGEUSDT" "SELL" 2000000 1 0%Z "12:00:00" eq_refl Hinit)
      as (_ & Hskip & _).
    apply Hskip. left. reflexivity.
  - destruct (liquidation_classification sample_clock (init ∅)
                "BTCUSDT" "SELL" 3 50000 0%Z "12:00:00" eq_refl Hinit)
      as (Hstore & _).
    apply Hstore; reflexivity.
Defined.

(** C3, as the claim states it, fails at the threshold: an order for
    BTCUSDT worth exactly 100,000 (not below the threshold) is not stored. *)
Lemma threshold_order_not_stored :
  let msg := Order "BTCUSDT" "SELL" 2 50000 0 in
  2 * 50000 == 100000
  ∧ ¬ (2 * 50000 < 100000)
  ∧ crypto_map !! "BTCUSDT" = Some "bitcoin"
  ∧ on_message sample_clock (init ∅) msg = init ∅
  ∧ recent_liquidations (on_message sample_clock (init ∅) msg) !! "bitcoin" = Some [].
Proof.
  cbv zeta. split; [reflexivity|]. split; [vm_compute; discriminate|].
  split; [reflexivity|]. split; reflexivity.
Qed.

(** ** Funding rates *)

(** The specification's mean, spelled out for one, two and three rates. *)
Lemma mean_of_present_values (a b c : Q) :
  (∃ m, mean_of_present [Some a; None; None] = Some m ∧ m == a)
  ∧ (∃ m, mean_of_present [Some a; Some b; None] = Some m ∧ m == (a + b) / 2)
  ∧ (∃ m, mean_of_present [Some a; Some b; Some c] = Some m ∧ m == (a + b + c) / 3)
  ∧ mean_of_present [None; None; None] = None.
Proof.
  split; [|split; [|split; [|done]]].
  - exists (py_sum [a] / py_len [a]). split; [done|].
    change (py_len [a]) with 1. unfold py_sum. cbn [foldl]. field.
  - exists (py_sum [a; b] / py_len [a; b]). split; [done|].
    change (py_len [a; b]) with 2. unfold py_sum. cbn [foldl]. field.
  - exists (py_sum [a; b; c] / py_len [a; b; c]). split; [done|].
    change (py_len [a; b; c]) with 3. unfold py_sum. cbn [foldl]. field.
Qed.

(** [get_funding_rates] fails as a whole only with its session; the okx
    rate is never filled in. *)
Lemma get_funding_rates_returns session b1 b2 y1 y2 :
  get_funding_rates session b1 b2 y1 y2 = None ↔ session = false.
Proof. unfold get_funding_rates. destruct session; split; congruence. Qed.

Lemma get_funding_rates_okx session b1 b2 y1 y2 fd :
  get_funding_rates session b1 b2 y1 y2 = Some fd →
  okx (bitcoin fd) = None ∧ okx (ethereum fd) = None.
Proof.
  unfold get_funding_rates. destruct session; [|done]. intros [= <-].
  destruct b1 as [|[r1|]], b2 as [|[r2|]], y1 as [|[r3|]], y2 as [|[r4|]]; done.
Qed.

(** What each request leaves in the record. *)
Lemma get_funding_rates_fields session b1 b2 y1 y2 fd :
  get_funding_rates session b1 b2 y1 y2 = Some fd →
  binance (bitcoin fd) = match b1 with Replies r => r | Fails => None end
  ∧ binance (ethereum fd)
    = match b1, b2 with Replies _, Replies r => r | _, _ => None end
  ∧ bybit (bitcoin fd) = match y1 with Replies r => r | Fails => None end
  ∧ bybit (ethereum fd)
    = match y1, y2 with Replies _, Replies r => r | _, _ => None end.
Proof.
  unfold get_funding_rates. destruct session; [|done]. intros [= <-].
  destruct b1 as [|[r1|]], b2 as [|[r2|]], y1 as [|[r3|]], y2 as [|[r4|]]; done.
Qed.

(** C5. In every record returned by [get_funding_rates], for bitcoin and
    for ethereum, the average is the mean of the per-source rates that are
    present among binance, bybit and okx, and it is defined exactly when one
    of them is present.  (The fetcher never fills in okx, so one or two
    rates are present at most.) *)
Theorem funding_average session b1 b2 y1 y2 fd :
  get_funding_rates session b1 b2 y1 y2 = Some fd →
  ∀ r, r = bitcoin fd ∨ r = ethereum fd →
    average r = mean_of_present [binance r; bybit r; okx r]
    ∧ (is_Some (average r) ↔
       is_Some (binance r) ∨ is_Some (bybit r) ∨ is_Some (okx r))
    ∧ okx r = None.
Proof.
  unfold get_funding_rates. destruct session; [|done]. intros [= <-] r Hr.
  destruct b1 as [|[r1|]], b2 as [|[r2|]], y1 as [|[r3|]], y2 as [|[r4|]];
    destruct Hr as [-> | ->];
    (split; [reflexivity|split; [|reflexivity]]);
    cbn; rewrite ?is_Some_alt; tauto.
Qed.

Lemma funding_average_witness :
  ∃ fd,
    get_funding_rates true (Replies (Some 0.01)) Fails (Replies (Some 0.03)) (Replies None)
    = Some fd
    ∧ average (bitcoin fd) = mean_of_present [Some 0.01; Some 0.03; None]
    ∧ average (ethereum fd) = None.
Proof.
  eexists. split; [reflexivity|].
  split.
  - eapply (funding_average true (Replies (Some 0.01)) Fails (Replies (Some 0.03))
              (Replies None) _ eq_refl).
    left. reflexivity.
  - eapply (funding_average true (Replies (Some 0.01)) Fails (Replies (Some 0.03))
              (Replies None) _ eq_refl).
    right. reflexivity.
Defined.

(** ** Emission of snapshots *)

Lemma get_price_data_returns response now_b now_e :
  get_price_data response now_b now_e = None ↔ response = Fails.
Proof. destruct response; split; done. Qed.

Lemma fetch_all_data_skips self inp :
  get_price_data (coingecko inp) (now_btc inp) (now_eth inp) = None
  ∨ get_funding_rates (session_ok inp) (binance_btc inp) (binance_eth inp)
      (bybit_btc inp) (bybit_eth inp) = None →
  fetch_all_data self inp = (self, Ok None).
Proof.
  unfold fetch_all_data. intros [-> | ->]; [done|].
  by destruct (get_price_data _ _ _).
Qed.

(** C2, as the code has it.  A poll emits a snapshot only when both the
    price fetch and the funding fetch return data: if either one returns
    nothing (the price request fails, or the funding session fails), the
    poll returns no snapshot, saves nothing and leaves the fetcher as it
    was.  When both return data, both histories exist and no anchor price
    is zero, the snapshot is built from them and handed to
    [save_data_to_json].  A failing exchange inside the funding fetch does
    not fail it: the fetch still returns, with that exchange's rates
    absent. *)
Theorem snapshot_emission self inp :
  let price_data := get_price_data (coingecko inp) (now_btc inp) (now_eth inp) in
  let funding_data :=
    get_funding_rates (session_ok inp) (binance_btc inp) (binance_eth inp)
      (bybit_btc inp) (bybit_eth inp) in
  (price_data = None ∨ funding_data = None →
     fetch_all_data self inp = (self, Ok None)
     ∧ emitted self inp = None
     ∧ scheduled_fetch self inp = self)
  ∧ (∀ pd fd,
       price_data = Some pd → funding_data = Some fd →
       let captured :=
         capture_643am_price self pd (est_time inp) (reference_io_ok inp) in
       has_histories self →
       anchor_usable captured "bitcoin" → anchor_usable captured "ethereum" →
       ∃ data,
         emitted self inp = Some data
         ∧ md_bitcoin data = bitcoin pd
         ∧ md_ethereum data = ethereum pd
         ∧ funding_rates data = fd
         ∧ calculate_sentiment_score captured pd fd = Ok (sentiment_score data)
         ∧ scheduled_fetch self inp
           = save_data_to_json data (market_io_ok inp) captured)
  ∧ (price_data = None ↔ coingecko inp = Fails)
  ∧ (funding_data = None ↔ session_ok inp = false)
  ∧ (∀ fd,
       funding_data = Some fd →
       (binance_btc inp = Fails →
        binance (bitcoin fd) = None ∧ binance (ethereum fd) = None)
       ∧ (bybit_btc inp = Fails →
          bybit (bitcoin fd) = None ∧ bybit (ethereum fd) = None)).
Proof.
  intros price_data funding_data.
  split; [|split; [|split; [|split]]].
  - intros Hnone.
    pose proof (fetch_all_data_skips self inp Hnone) as Hskip.
    unfold emitted, scheduled_fetch. by rewrite Hskip.
  - intros pd fd Hpd Hfd captured [Hb He] Hub Hue.
    assert (Hcap : has_histories captured).
    { unfold has_histories, captured. rewrite capture_keeps_liquidations. done. }
    destruct (score_returns captured pd fd Hcap Hub Hue) as [score Hscore].
    destruct Hcap as [[btc Hbtc] [eth Heth]].
    assert (Hfetch : fetch_all_data self inp
                     = (captured,
                        Ok (Some (mkMarketData (bitcoin pd) (ethereum pd) fd
                                    (mkByCrypto btc eth) score
                                    (reference_643am captured) (now_snapshot inp))))).
    { unfold fetch_all_data. fold price_data funding_data. rewrite Hpd, Hfd.
      fold captured. rewrite Hscore. unfold getitem. by rewrite Hbtc, Heth. }
    eexists. unfold emitted, scheduled_fetch. rewrite Hfetch.
    repeat split; done.
  - apply get_price_data_returns.
  - apply get_funding_rates_returns.
  - intros fd Hfd.
    destruct (get_funding_rates_fields _ _ _ _ _ _ Hfd) as (Hbb & Hbe & Hyb & Hye).
    split; intros Hfail; rewrite Hfail in *; done.
Qed.

Lemma snapshot_emission_witness :
  emitted (init ∅) (sample_inputs Fails true) = None
  ∧ ∃ data,
      emitted (init ∅) (sample_inputs (Replies sample_quotes) true) = Some data
      ∧ sentiment_score data = (-3)%Z
      ∧ bybit (bitcoin (funding_rates data)) = None.
Proof.
  split.
  - destruct (snapshot_emission (init ∅) (sample_inputs Fails true)) as (Hskip & _).
    apply Hskip. left. reflexivity.
  - destruct (snapshot_emission (init ∅) (sample_inputs (Replies sample_quotes) true))
      as (_ & Hemit & _ & _ & Habsent).
    destruct (Hemit _ _ eq_refl eq_refl) as (data & Hdata & _ & _ & Hfd & Hscore & _).
    + split; vm_compute; eauto.
    + vm_compute. exact I.
    + vm_compute. exact I.
    + exists data. split; [exact Hdata|]. split.
      * assert (Hs : Ok (sentiment_score data) = Ok (-3)%Z)
          by (rewrite <- Hscore; reflexivity).
        by injection Hs.
      * rewrite Hfd. by apply (Habsent _ eq_refl).
Defined.

(** C2, as the claim states it, fails: with the price request failing and
    the funding fetch succeeding, or the other way round, the poll emits no
    snapshot, although with both succeeding it does. *)
Lemma single_fetch_failure_skips_emission :
  let price_fails := sample_inputs Fails true in
  let funding_fails := sample_inputs (Replies sample_quotes) false in
  let both_succeed := sample_inputs (Replies sample_quotes) true in
  (get_price_data (coingecko price_fails) "" "" = None
   ∧ is_Some (get_funding_rates (session_ok price_fails) (binance_btc price_fails)
                (binance_eth price_fails) (bybit_btc price_fails) (bybit_eth price_fails))
   ∧ emitted (init ∅) price_fails = None)
  ∧ (is_Some (get_price_data (coingecko funding_fails) "" "")
     ∧ get_funding_rates (session_ok funding_fails) (binance_btc funding_fails)
         (binance_eth funding_fails) (bybit_btc funding_fails) (bybit_eth funding_fails)
       = None
     ∧ emitted (init ∅) funding_fails = None)
  ∧ is_Some (emitted (init ∅) both_succeed).
Proof.
  cbv zeta. repeat split; vm_compute; eauto.
Qed.

(** * Further properties of the scorer *)

Lemma py_round_mono (x y : Q) : x <= y → (py_round x ≤ py_round y)%Z.
Proof.
  intros Hxy.
  pose proof (Qfloor_le x) as Hx0. pose proof (Qlt_floor x) as Hx1.
  pose proof (Qfloor_le y) as Hy0. pose proof (Qlt_floor y) as Hy1.
  pose proof (Qfloor_resp_le _ _ Hxy) as Hfl.
  rewrite inject_Z_plus in Hx1, Hy1.
  unfold py_round. cbv zeta.
  destruct (Z.eq_dec (Qfloor x) (Qfloor y)) as [Heq|Hne].
  - rewrite Heq in *.
    destruct (x - inject_Z (Qfloor y) ?= 0.5) eqn:Hcx;
      destruct (y - inject_Z (Qfloor y) ?= 0.5) eqn:Hcy;
      first [apply Qeq_alt in Hcx | apply Qlt_alt in Hcx | apply Qgt_alt in Hcx];
      first [apply Qeq_alt in Hcy | apply Qlt_alt in Hcy | apply Qgt_alt in Hcy];
      destruct (Z.even (Qfloor y)); try lia; exfalso; lra.
  - destruct (x - inject_Z (Qfloor x) ?= 0.5), (y - inject_Z (Qfloor y) ?= 0.5);
      destruct (Z.even (Qfloor x)), (Z.even (Qfloor y)); lia.
Qed.

Lemma momentum_component_values price_data :
  let b := change_24h (bitcoin price_data) in
  let e := change_24h (ethereum price_data) in
  (0 < b → 0 < e → momentum_component price_data == 25)
  ∧ (b <= 0 → e <= 0 → momentum_component price_data == -25)
  ∧ (0 < b → e <= 0 → momentum_component price_data == 0)
  ∧ (b <= 0 → 0 < e → momentum_component price_data == 0).
Proof.
  intros b e. unfold momentum_component. fold b e.
  repeat split; intros Hb He;
    repeat match goal with
           | H : 0 < _ |- _ => apply Qgtb_spec in H; rewrite H
           | H : _ <= 0 |- _ => apply Qgtb_false in H; rewrite H
           end; reflexivity.
Qed.

(** X1. The score reads the two 24h changes only through whether each is
    positive: the momentum it adds before rounding is 25 when both are, -25
    when neither is and 0 when exactly one is, whichever one.  A change of
    exactly zero counts as not positive. *)
Theorem momentum_reads_signs self price_data funding_data btc_liqs :
  recent_liquidations self !! "bitcoin" = Some btc_liqs →
  is_Some (recent_liquidations self !! "ethereum") →
  let b := change_24h (bitcoin price_data) in
  let e := change_24h (ethereum price_data) in
  let score_with (momentum : Q) : result Z :=
    db ← calculate_change_from_643am self (price (bitcoin price_data)) "bitcoin";
    de ← calculate_change_from_643am self (price (ethereum price_data)) "ethereum";
    Ok (py_round (liquidation_component btc_liqs + funding_component funding_data
                  + momentum + reference_component db de)) in
  (0 < b → 0 < e →
     calculate_sentiment_score self price_data funding_data = score_with 25)
  ∧ (b <= 0 → e <= 0 →
     calculate_sentiment_score self price_data funding_data = score_with (-25))
  ∧ (0 < b → e <= 0 →
     calculate_sentiment_score self price_data funding_data = score_with 0)
  ∧ (b <= 0 → 0 < e →
     calculate_sentiment_score self price_data funding_data = score_with 0)
  ∧ (∀ price_data',
       price (bitcoin price_data') = price (bitcoin price_data) →
       price (ethereum price_data') = price (ethereum price_data) →
       (0 < change_24h (bitcoin price_data') ↔ 0 < b) →
       (0 < change_24h (ethereum price_data') ↔ 0 < e) →
       calculate_sentiment_score self price_data' funding_data
       = calculate_sentiment_score self price_data funding_data).
Proof.
  intros Hb He b e score_with.
  destruct (momentum_component_values price_data) as (Hpp & Hnn & Hpn & Hnp).
  assert (Hscore : ∀ m : Q,
            momentum_component price_data == m →
            calculate_sentiment_score self price_data funding_data = score_with m).
  { intros m Hm. by apply (score_with_contributions _ _ _ btc_liqs). }
  split; [intros; by apply Hscore, Hpp|]. split; [intros; by apply Hscore, Hnn|].
  split; [intros; by apply Hscore, Hpn|]. split; [intros; by apply Hscore, Hnp|].
  intros price_data' Hpb Hpe Hsb Hse.
  assert (Hgb : Qgtb (change_24h (bitcoin price_data')) 0 = Qgtb b 0).
  { destruct (Qgtb b 0) eqn:Hg.
    - apply Qgtb_spec. apply Hsb. by apply Qgtb_spec.
    - destruct (Qgtb (change_24h (bitcoin price_data')) 0) eqn:Hg'; [|done].
      apply Qgtb_spec, Hsb, Qgtb_spec in Hg'. fold b in Hg'. congruence. }
  assert (Hge : Qgtb (change_24h (ethereum price_data')) 0 = Qgtb e 0).
  { destruct (Qgtb e 0) eqn:Hg.
    - apply Qgtb_spec. apply Hse. by apply Qgtb_spec.
    - destruct (Qgtb (change_24h (ethereum price_data')) 0) eqn:Hg'; [|done].
      apply Qgtb_spec, Hse, Qgtb_spec in Hg'. fold e in Hg'. congruence. }
  unfold calculate_sentiment_score. by rewrite Hpb, Hpe, Hgb, Hge.
Qed.

Lemma momentum_reads_signs_witness :
  calculate_sentiment_score (init ∅)
    (mkByCrypto (mkPriceData 60000 0 0 0 "") (mkPriceData 3000 5 0 0 ""))
    sample_funding
  = calculate_sentiment_score (init ∅) sample_prices sample_funding.
Proof.
  assert (Hbtc : recent_liquidations (init ∅) !! "bitcoin" = Some []) by reflexivity.
  assert (Heth : is_Some (recent_liquidations (init ∅) !! "ethereum"))
    by (vm_compute; eauto).
  destruct (momentum_reads_signs (init ∅) sample_prices sample_funding []
              Hbtc Heth) as (_ & _ & Hpn & _).
  destruct (momentum_reads_signs (init ∅)
              (mkByCrypto (mkPriceData 60000 0 0 0 "") (mkPriceData 3000 5 0 0 ""))
              sample_funding [] Hbtc Heth) as (_ & _ & _ & Hnp & _).
  rewrite Hpn, Hnp; try reflexivity; vm_compute; discriminate.
Defined.

Lemma funding_component_le fd1 fd2 :
  avg_funding fd1 <= avg_funding fd2 →
  funding_component fd2 <= funding_component fd1.
Proof.
  intros Hle. unfold funding_component.
  destruct (Qgtb (avg_funding fd2) 0.02) eqn:Hhi2;
    destruct (Qgtb (avg_funding fd1) 0.02) eqn:Hhi1;
    destruct (Qltb (avg_funding fd2) 0.01) eqn:Hlo2;
    destruct (Qltb (avg_funding fd1) 0.01) eqn:Hlo1;
    rewrite ?Qgtb_spec, ?Qgtb_false, ?Qltb_spec, ?Qltb_false in *; lra.
Qed.

(** Two scores of one fetcher and one price data compare as their funding
    contributions do. *)
Lemma score_le_of_funding self price_data fd1 fd2 s1 s2 :
  funding_component fd2 <= funding_component fd1 →
  calculate_sentiment_score self price_data fd1 = Ok s1 →
  calculate_sentiment_score self price_data fd2 = Ok s2 →
  (s2 ≤ s1)%Z.
Proof.
  intros Hle H1 H2.
  destruct (score_inversion _ _ _ _ H1) as (l1 & b1 & e1 & Hl1 & Hb1 & He1 & ->).
  destruct (score_inversion _ _ _ _ H2) as (l2 & b2 & e2 & Hl2 & Hb2 & He2 & ->).
  assert (l2 = l1) by congruence. assert (b2 = b1) by congruence.
  assert (e2 = e1) by congruence. subst.
  apply py_round_mono. lra.
Qed.

(** X2. A higher blended funding average never gives a higher score: for
    one fetcher and one price data, if the average funding of one funding
    record is at most that of another, its score is at least the other's;
    and the score does fall, by 50 between absent funding and a funding of
    0.05. *)
Theorem score_antitone_in_funding :
  (∀ self price_data fd1 fd2 s1 s2,
     avg_funding fd1 <= avg_funding fd2 →
     calculate_sentiment_score self price_data fd1 = Ok s1 →
     calculate_sentiment_score self price_data fd2 = Ok s2 →
     (s2 ≤ s1)%Z)
  ∧ (∃ self price_data fd1 fd2 s1,
       avg_funding fd1 <= avg_funding fd2
       ∧ calculate_sentiment_score self price_data fd1 = Ok s1
       ∧ calculate_sentiment_score self price_data fd2 = Ok (s1 - 50)%Z).
Proof.
  split.
  - intros self price_data fd1 fd2 s1 s2 Hle.
    apply score_le_of_funding. by apply funding_component_le.
  - exists (init ∅), sample_prices,
      (mkByCrypto (mkFundingData None None None None)
                  (mkFundingData None None None None)),
      (mkByCrypto (mkFundingData None None None (Some 0.05))
                  (mkFundingData None None None (Some 0.05))),
      25%Z.
    split; [vm_compute; discriminate|]. split; reflexivity.
Qed.

Lemma score_antitone_in_funding_witness : (-3 ≤ 25)%Z.
Proof.
  destruct score_antitone_in_funding as [Hmono _].
  apply (Hmono (init ∅) sample_prices
           (mkByCrypto (mkFundingData None None None None)
                       (mkFundingData None None None None))
           sample_funding).
  - vm_compute. discriminate.
  - reflexivity.
  - reflexivity.
Defined.



(** The deviation, times the anchor, is a hundred times the move. *)
Lemma deviation_times_anchor (current_price ref_price : Q) :
  ¬ ref_price == 0 →
  (current_price - ref_price) / ref_price * 100 * ref_price
  == (current_price - ref_price) * 100.
Proof. intros Hnz. by field. Qed.

Lemma reference_component_down (b e : Q) :
  b <= 0 → e <= 0 → reference_component (Some b) (Some e) = -20.
Proof.
  intros Hb He. unfold reference_component.
  assert (Hg : Qgtb ((b + e) / 2) 0 = false).
  { apply Qgtb_false. apply Qle_shift_div_r; lra. }
  by rewrite Hg.
Qed.

Lemma reference_component_up (b e : Q) :
  0 < b → 0 < e → reference_component (Some b) (Some e) = 20.
Proof.
  intros Hb He. unfold reference_component.
  assert (Hg : Qgtb ((b + e) / 2) 0 = true).
  { apply Qgtb_spec. apply Qlt_shift_div_l; lra. }
  by rewrite Hg.
Qed.

(** X4. With both anchor prices held and positive, the score reads the
    current prices only through their direction when both move the same
    way: with both prices at or below their anchors (equal prices included,
    as in the poll that captures them) the reference adds -20 before
    rounding, with both above it adds 20, and it is never left out. *)
Theorem reference_reads_direction self price_data funding_data btc_liqs rb re :
  recent_liquidations self !! "bitcoin" = Some btc_liqs →
  is_Some (recent_liquidations self !! "ethereum") →
  reference_643am self !! "bitcoin" = Some (RFloat rb) →
  reference_643am self !! "ethereum" = Some (RFloat re) →
  0 < rb → 0 < re →
  let score_with (reference : Q) : result Z :=
    Ok (py_round (liquidation_component btc_liqs + funding_component funding_data
                  + momentum_component price_data + reference)) in
  (price (bitcoin price_data) <= rb → price (ethereum price_data) <= re →
     calculate_sentiment_score self price_data funding_data = score_with (-20))
  ∧ (rb < price (bitcoin price_data) → re < price (ethereum price_data) →
     calculate_sentiment_score self price_data funding_data = score_with 20).
Proof.
  intros Hb He Hrb Hre Hpb Hpe score_with.
  assert (Hnb : ¬ rb == 0) by lra. assert (Hne : ¬ re == 0) by lra.
  pose proof (deviation_times_anchor (price (bitcoin price_data)) rb Hnb) as Hdb.
  pose proof (deviation_times_anchor (price (ethereum price_data)) re Hne) as Hde.
  assert (Hscore :
            calculate_sentiment_score self price_data funding_data
            = Ok (py_round
                    (liquidation_component btc_liqs + funding_component funding_data
                     + momentum_component price_data
                     + reference_component
                         (Some ((price (bitcoin price_data) - rb) / rb * 100))
                         (Some ((price (ethereum price_data) - re) / re * 100))))).
  { rewrite (score_with_contributions self price_data funding_data btc_liqs
               (liquidation_component btc_liqs) (funding_component funding_data)
               (momentum_component price_data)); try done.
    rewrite (change_captured self _ "bitcoin" rb) by done.
    by rewrite (change_captured self _ "ethereum" re). }
  split; intros Hcb Hce; rewrite Hscore; unfold score_with.
  - rewrite reference_component_down; [done| |]; nra.
  - rewrite reference_component_up; [done| |]; nra.
Qed.

Lemma reference_reads_direction_witness :
  calculate_sentiment_score
    (capture_643am_price (init ∅) sample_prices (sample_time 6 43 0) true)
    sample_prices sample_funding
  = Ok (-23)%Z.
Proof.
  assert (Heth : is_Some
                   (recent_liquidations
                      (capture_643am_price (init ∅) sample_prices (sample_time 6 43 0) true)
                    !! "ethereum"))
    by (vm_compute; eauto).
  assert (Hbtc : recent_liquidations
                   (capture_643am_price (init ∅) sample_prices (sample_time 6 43 0) true)
                 !! "bitcoin" = Some []) by reflexivity.
  assert (Hrb : reference_643am
                  (capture_643am_price (init ∅) sample_prices (sample_time 6 43 0) true)
                !! "bitcoin" = Some (RFloat 60000)) by reflexivity.
  assert (Hre : reference_643am
                  (capture_643am_price (init ∅) sample_prices (sample_time 6 43 0) true)
                !! "ethereum" = Some (RFloat 3000)) by reflexivity.
  destruct (reference_reads_direction
              (capture_643am_price (init ∅) sample_prices (sample_time 6 43 0) true)
              sample_prices sample_funding [] 60000 3000
              Hbtc Heth Hrb Hre eq_refl eq_refl)
    as [Hdown _].
  rewrite Hdown; [reflexivity| |]; vm_compute; discriminate.
Defined.

(** X5. Every returned score lies in [-100, 100], the sum of the four
    weights, and both ends are reached. *)
Theorem score_range_is_tight :
  (∀ self price_data funding_data score,
     calculate_sentiment_score self price_data funding_data = Ok score →
     (-100 ≤ score ≤ 100)%Z)
  ∧ (∃ self price_data funding_data,
       calculate_sentiment_score self price_data funding_data = Ok 100%Z)
  ∧ (∃ self price_data funding_data,
       calculate_sentiment_score self price_data funding_data = Ok (-100)%Z).
Proof.
  split; [|split].
  - intros self price_data funding_data score Hscore.
    destruct (score_inversion _ _ _ _ Hscore) as (btc_liqs & b & e & _ & _ & _ & ->).
    apply contributions_within_100.
  - exists (mkFetcher
              {[ "bitcoin" := RFloat 50000; "ethereum" := RFloat 2000 ]}
              {[ "bitcoin" := [sample_event "BTCUSDT" "BUY" 3 50000]; "ethereum" := [] ]}
              ∅),
      (mkByCrypto (mkPriceData 60000 2 0 0 "") (mkPriceData 3000 1 0 0 "")),
      (mkByCrypto (mkFundingData None None None None)
                  (mkFundingData None None None None)).
    reflexivity.
  - exists (mkFetcher
              {[ "bitcoin" := RFloat 70000; "ethereum" := RFloat 4000 ]}
              {[ "bitcoin" := [sample_event "BTCUSDT" "SELL" 3 50000]; "ethereum" := [] ]}
              ∅),
      (mkByCrypto (mkPriceData 60000 (-2) 0 0 "") (mkPriceData 3000 (-1) 0 0 "")),
      (mkByCrypto (mkFundingData None None None (Some 0.05))
                  (mkFundingData None None None (Some 0.05))).
    reflexivity.
Qed.

Lemma score_range_is_tight_witness : (-100 ≤ -3 ≤ 100)%Z.
Proof.
  destruct score_range_is_tight as (Hrange & _).
  apply (Hrange (init ∅) sample_prices sample_funding). reflexivity.
Defined.

(** X6. The score reads only the two 24h changes, the two prices, the two
    funding averages, the bitcoin history and the anchor: volumes, market
    caps, timestamps, per-source rates and the files do not affect it. *)
Theorem score_reads_only self price_data price_data' funding_data funding_data' files' :
  price (bitcoin price_data) = price (bitcoin price_data') →
  price (ethereum price_data) = price (ethereum price_data') →
  change_24h (bitcoin price_data) = change_24h (bitcoin price_data') →
  change_24h (ethereum price_data) = change_24h (ethereum price_data') →
  average (bitcoin funding_data) = average (bitcoin funding_data') →
  average (ethereum funding_data) = average (ethereum funding_data') →
  calculate_sentiment_score (set_files files' self) price_data' funding_data'
  = calculate_sentiment_score self price_data funding_data.
Proof.
  intros Hpb Hpe Hcb Hce Hab Hae.
  unfold calculate_sentiment_score, calculate_change_from_643am.
  cbn [recent_liquidations reference_643am set_files].
  by rewrite Hpb, Hpe, Hcb, Hce, Hab, Hae.
Qed.

Lemma score_reads_only_witness :
  calculate_sentiment_score (set_files {[ "notes.txt" := ReferenceBlob ∅ ]} (init ∅))
    (mkByCrypto (mkPriceData 60000 2 7 8 "a") (mkPriceData 3000 (-1) 9 10 "b"))
    (mkByCrypto (mkFundingData None (Some 0.5) (Some 0.25) (Some 0.005))
                (mkFundingData None None None (Some 0.03)))
  = calculate_sentiment_score (init ∅) sample_prices sample_funding.
Proof.
  apply score_reads_only; reflexivity.
Defined.

Lemma count_side_perm tag (l1 l2 : list LiquidationEvent) :
  l1 ≡ₚ l2 → count_side tag l1 = count_side tag l2.
Proof.
  intros Hperm. unfold count_side. f_equal.
  apply Permutation_length. by apply filter_Permutation.
Qed.

Lemma liquidation_component_perm (l1 l2 : list LiquidationEvent) :
  l1 ≡ₚ l2 → liquidation_component l1 = liquidation_component l2.
Proof.
  intros Hperm. unfold liquidation_component.
  rewrite (count_side_perm "SELL" _ _ Hperm), (count_side_perm "BUY" _ _ Hperm).
  destruct l1 as [|x1 l1], l2 as [|x2 l2]; try done.
  all: exfalso;
    first [ by apply Permutation_nil_cons in Hperm
          | symmetry in Hperm; by apply Permutation_nil_cons in Hperm ].
Qed.

(** X7. The score depends on the bitcoin history only through its counts:
    two fetchers with the same anchor whose bitcoin histories hold the same
    events in any order score alike. *)
Theorem score_ignores_history_order self1 self2 btc1 btc2 price_data funding_data :
  reference_643am self1 = reference_643am self2 →
  recent_liquidations self1 !! "bitcoin" = Some btc1 →
  recent_liquidations self2 !! "bitcoin" = Some btc2 →
  btc1 ≡ₚ btc2 →
  is_Some (recent_liquidations self1 !! "ethereum") →
  is_Some (recent_liquidations self2 !! "ethereum") →
  calculate_sentiment_score self1 price_data funding_data
  = calculate_sentiment_score self2 price_data funding_data.
Proof.
  intros Href Hb1 Hb2 Hperm [h1 H1] [h2 H2].
  rewrite !score_decomposition.
  unfold getitem, calculate_change_from_643am.
  rewrite Href, Hb1, Hb2, H1, H2. cbn [mbind result_bind].
  by rewrite (liquidation_component_perm _ _ Hperm).
Qed.

Lemma score_ignores_history_order_witness :
  calculate_sentiment_score
    (set_liquidations
       {[ "bitcoin" := [sample_event "BTCUSDT" "BUY" 3 50000;
                        sample_event "BTCUSDT" "SELL" 4 50000;
                        sample_event "BTCUSDT" "SELL" 5 50000];
          "ethereum" := [] ]} (init ∅))
    sample_prices sample_funding
  = calculate_sentiment_score
      (set_liquidations
         {[ "bitcoin" := [sample_event "BTCUSDT" "SELL" 5 50000;
                          sample_event "BTCUSDT" "BUY" 3 50000;
                          sample_event "BTCUSDT" "SELL" 4 50000];
            "ethereum" := [] ]} (init ∅))
      sample_prices sample_funding.
Proof.
  eapply score_ignores_history_order; try reflexivity.
  - etransitivity; [apply Permutation_cons_append|].
    cbn [app]. etransitivity; [apply Permutation_cons_append|]. cbn [app]. reflexivity.
  - vm_compute; eauto.
  - vm_compute; eauto.
Defined.

(** * Further properties of the liquidation aggregator *)

Lemma slice_last_short {A} (n : nat) (l : list A) :
  (length l ≤ n)%nat → slice_last n l = l.
Proof.
  intros Hlen. unfold slice_last.
  replace (length l - n)%nat with 0%nat by lia. reflexivity.
Qed.

Lemma slice_last_app {A} (n : nat) (l m : list A) :
  slice_last n (slice_last n l ++ m) = slice_last n (l ++ m).
Proof.
  destruct (decide (length l ≤ n)%nat) as [Hle|Hgt].
  - by rewrite (slice_last_short n l).
  - unfold slice_last. rewrite !length_app, length_drop.
    replace (length l - (length l - n) + length m - n)%nat with (length m) by lia.
    replace (length l + length m - n)%nat with ((length l - n) + length m)%nat by lia.
    rewrite <- drop_drop. f_equal.
    rewrite drop_app_le by lia. reflexivity.
Qed.

(** The history [process_liquidation] leaves is the last 20 of the old one
    followed by the event. *)
Lemma process_liquidation_last_20 self liquidation crypto history :
  crypto_map !! symbol liquidation = Some crypto →
  recent_liquidations self !! crypto = Some history →
  fst (process_liquidation self liquidation)
  = set_liquidations
      (<[crypto := slice_last 20 (history ++ [liquidation])]> (recent_liquidations self))
      self.
Proof.
  intros Hsym Hhist.
  rewrite (process_liquidation_recorded _ _ _ _ Hsym Hhist). cbn [fst].
  destruct (20 <? _)%nat eqn:Hlt; [done|].
  apply Nat.ltb_ge in Hlt. by rewrite slice_last_short.
Qed.

(** X8. Recording a list of events of one instrument leaves in its history
    the last 20 of the old history followed by the events, in order. *)
Theorem record_all_last_20 self events crypto history :
  Forall (λ liquidation, crypto_map !! symbol liquidation = Some crypto) events →
  recent_liquidations self !! crypto = Some history →
  (length history ≤ 20)%nat →
  recent_liquidations (record_all self events) !! crypto
  = Some (slice_last 20 (history ++ events)).
Proof.
  intros Hall. revert self history.
  induction Hall as [|liquidation events Hsym _ IH]; intros self history Hhist Hlen.
  - cbn [record_all foldl]. rewrite app_nil_r, slice_last_short by done. exact Hhist.
  - unfold record_all. cbn [foldl]. fold (record_all (fst (process_liquidation self liquidation)) events).
    rewrite (process_liquidation_last_20 _ _ _ _ Hsym Hhist).
    rewrite (IH _ (slice_last 20 (history ++ [liquidation]))).
    + rewrite slice_last_app, <- app_assoc. reflexivity.
    + cbn [recent_liquidations set_liquidations]. apply lookup_insert_eq.
    + apply slice_last_length.
Qed.

Lemma record_all_last_20_witness :
  recent_liquidations
    (record_all
       (set_liquidations {[ "bitcoin" := sample_history; "ethereum" := [] ]} (init ∅))
       [sample_event "BTCUSDT" "BUY" 21 200000; sample_event "BTCUSDT" "BUY" 22 200000])
    !! "bitcoin"
  = Some (slice_last 20
            (sample_history
             ++ [sample_event "BTCUSDT" "BUY" 21 200000;
                 sample_event "BTCUSDT" "BUY" 22 200000])).
Proof.
  apply record_all_last_20.
  - repeat constructor.
  - reflexivity.
  - vm_compute. lia.
Defined.

(** X9. Recording an event changes one thing only: the history of the
    event's instrument.  The other histories, the anchor and the files stay
    as they were, and the outcome is never an exception when that history
    exists. *)
Theorem process_liquidation_frame self liquidation crypto history :
  crypto_map !! symbol liquidation = Some crypto →
  recent_liquidations self !! crypto = Some history →
  let self' := fst (process_liquidation self liquidation) in
  snd (process_liquidation self liquidation) = Ok ()
  ∧ reference_643am self' = reference_643am self
  ∧ files self' = files self
  ∧ dom (recent_liquidations self') = dom (recent_liquidations self)
  ∧ ∀ other, other ≠ crypto →
      recent_liquidations self' !! other = recent_liquidations self !! other.
Proof.
  intros Hsym Hhist self'. subst self'.
  rewrite (process_liquidation_recorded _ _ _ _ Hsym Hhist).
  cbn [fst snd reference_643am files recent_liquidations set_liquidations].
  split; [done|]. split; [done|]. split; [done|]. split.
  - rewrite dom_insert_L. apply subseteq_union_1_L, singleton_subseteq_l.
    apply elem_of_dom. eauto.
  - intros other Hne. by rewrite lookup_insert_ne.
Qed.

Lemma process_liquidation_frame_witness :
  recent_liquidations
    (fst (process_liquidation (init ∅) (sample_event "BTCUSDT" "BUY" 3 50000)))
    !! "ethereum"
  = recent_liquidations (init ∅) !! "ethereum".
Proof.
  assert (Hhist : recent_liquidations (init ∅) !! "bitcoin" = Some []) by reflexivity.
  destruct (process_liquidation_frame (init ∅) (sample_event "BTCUSDT" "BUY" 3 50000)
              "bitcoin" [] eq_refl Hhist) as (_ & _ & _ & _ & Hother).
  apply Hother. discriminate.
Defined.

(** X10. An event whose symbol is recognised but whose history is missing
    makes [process_liquidation] raise [KeyError] before changing anything,
    and the stream handler swallows it: the fetcher is unchanged and the
    next message is handled as usual. *)
Theorem process_liquidation_missing_history strftime_HMS self sym sd q p T t crypto :
  strftime_HMS T = Some t →
  crypto_map !! sym = Some crypto →
  recent_liquidations self !! crypto = None →
  process_liquidation self (mkLiquidationEvent sym sd q p (q * p) t "Binance")
  = (self, Raise KeyError)
  ∧ on_message strftime_HMS self (Order sym sd q p T) = self
  ∧ ∀ stream,
      setup_liquidation_websocket strftime_HMS self (Order sym sd q p T :: stream)
      = setup_liquidation_websocket strftime_HMS self stream.
Proof.
  intros Hfmt Hsym Hnone.
  assert (Hraise : process_liquidation self (mkLiquidationEvent sym sd q p (q * p) t "Binance")
                   = (self, Raise KeyError)).
  { unfold process_liquidation, getitem. cbn [symbol]. by rewrite Hsym, Hnone. }
  assert (Hmsg : on_message strftime_HMS self (Order sym sd q p T) = self).
  { cbn [on_message]. rewrite Hfmt, Hraise. by destruct (Qgtb _ _). }
  split; [done|]. split; [done|].
  intros stream. unfold setup_liquidation_websocket. cbn [foldl]. by rewrite Hmsg.
Qed.

Lemma process_liquidation_missing_history_witness :
  process_liquidation (set_liquidations {[ "ethereum" := [] ]} (init ∅))
    (sample_event "BTCUSDT" "BUY" 3 50000)
  = (set_liquidations {[ "ethereum" := [] ]} (init ∅), Raise KeyError).
Proof.
  apply (process_liquidation_missing_history sample_clock
           (set_liquidations {[ "ethereum" := [] ]} (init ∅))
           "BTCUSDT" "BUY" 3 50000 0%Z "12:00:00" "bitcoin");
    reflexivity.
Defined.

Lemma process_liquidation_keeps self liquidation :
  let self' := fst (process_liquidation self liquidation) in
  reference_643am self' = reference_643am self
  ∧ files self' = files self
  ∧ dom (recent_liquidations self') = dom (recent_liquidations self).
Proof.
  cbv zeta. unfold process_liquidation.
  destruct (crypto_map !! symbol liquidation) as [crypto|] eqn:Hsym; [|done].
  unfold getitem.
  destruct (recent_liquidations self !! crypto) as [history|] eqn:Hhist; [|done].
  cbn [fst reference_643am files recent_liquidations set_liquidations].
  split; [done|]. split; [done|].
  rewrite dom_insert_L. apply subseteq_union_1_L, singleton_subseteq_l.
  apply elem_of_dom. eauto.
Qed.

Lemma on_message_keeps strftime_HMS self msg :
  let self' := on_message strftime_HMS self msg in
  reference_643am self' = reference_643am self
  ∧ files self' = files self
  ∧ dom (recent_liquidations self') = dom (recent_liquidations self).
Proof.
  cbv zeta. destruct msg as [| | |sym sd q p T]; try done.
  cbn [on_message]. destruct (strftime_HMS T); [|done].
  destruct (Qgtb _ _); [|done].
  apply process_liquidation_keeps.
Qed.

(** X11. The liquidation stream never touches the anchor or the files, and
    never adds or removes a history: whatever the messages, only the
    contents of the existing histories change. *)
Theorem stream_frame strftime_HMS self stream :
  let self' := setup_liquidation_websocket strftime_HMS self stream in
  reference_643am self' = reference_643am self
  ∧ files self' = files self
  ∧ dom (recent_liquidations self') = dom (recent_liquidations self).
Proof.
  cbv zeta. unfold setup_liquidation_websocket. revert self.
  induction stream as [|msg stream IH]; intros self; [done|].
  cbn [foldl].
  destruct (IH (on_message strftime_HMS self msg)) as (Hr & Hf & Hd).
  destruct (on_message_keeps strftime_HMS self msg) as (Hr' & Hf' & Hd').
  rewrite Hr, Hf, Hd. done.
Qed.

Lemma on_message_skip strftime_HMS self msg :
  reaches_append strftime_HMS msg = false →
  on_message strftime_HMS self msg = self.
Proof.
  destruct msg as [| | |sym sd q p T]; try done.
  cbn [reaches_append on_message].
  destruct (strftime_HMS T) as [t|]; [|done].
  cbn [value].
  destruct (crypto_map !! sym) as [crypto|] eqn:Hsym.
  - by intros ->.
  - intros _. destruct (Qgtb _ _); [|done].
    by rewrite process_liquidation_ignored.
Qed.

(** X12. Only the messages that reach the append matter: handling a stream
    gives the same fetcher as handling just its orders that have a
    renderable time, a recognised symbol and a value above 100,000, in the
    same order.  Undecodable messages, messages without an order and
    incomplete orders can be dropped anywhere. *)
Theorem stream_skips_noise strftime_HMS self stream :
  setup_liquidation_websocket strftime_HMS self stream
  = setup_liquidation_websocket strftime_HMS self
      (filter (λ msg, reaches_append strftime_HMS msg = true) stream).
Proof.
  unfold setup_liquidation_websocket. revert self.
  induction stream as [|msg stream IH]; intros self; [done|].
  cbn [foldl].
  destruct (reaches_append strftime_HMS msg) eqn:Hmsg.
  - rewrite filter_cons_True by done. cbn [foldl]. apply IH.
  - rewrite filter_cons_False by (rewrite Hmsg; done).
    rewrite (on_message_skip _ _ _ Hmsg). apply IH.
Qed.

Lemma init_histories disk :
  dom (recent_liquidations (init disk)) = {[ "bitcoin"; "ethereum" ]}.
Proof.
  rewrite init_liquidations. rewrite dom_insert_L, dom_singleton_L. done.
Qed.

Lemma run_keeps_histories strftime_HMS self op :
  dom (recent_liquidations (run strftime_HMS self op)) = dom (recent_liquidations self).
Proof.
  destruct op as [msg|inp]; cbn [run].
  - apply on_message_keeps.
  - by rewrite scheduled_fetch_keeps_liquidations.
Qed.

Lemma change_never_KeyError self current_price crypto :
  calculate_change_from_643am self current_price crypto ≠ Raise KeyError.
Proof.
  unfold calculate_change_from_643am.
  destruct (reference_643am self !! crypto) as [[|ref_price|t]|]; try done.
  by destruct (Qeq_bool ref_price 0).
Qed.

(** X13. From [__init__] on, through any messages and polls, the fetcher
    holds exactly the two histories 'bitcoin' and 'ethereum', so
    [calculate_sentiment_score] never raises [KeyError]. *)
Theorem histories_always_present strftime_HMS disk ops price_data funding_data :
  let self := foldl (run strftime_HMS) (init disk) ops in
  dom (recent_liquidations self) = {[ "bitcoin"; "ethereum" ]}
  ∧ has_histories self
  ∧ calculate_sentiment_score self price_data funding_data ≠ Raise KeyError.
Proof.
  cbv zeta.
  assert (Hdom : dom (recent_liquidations (foldl (run strftime_HMS) (init disk) ops))
                 = {[ "bitcoin"; "ethereum" ]}).
  { rewrite <- (init_histories disk). generalize (init disk).
    induction ops as [|op ops IH]; intros self; [done|].
    cbn [foldl]. rewrite IH. apply run_keeps_histories. }
  set (self := foldl (run strftime_HMS) (init disk) ops) in *.
  assert (Hhas : has_histories self).
  { split; apply elem_of_dom; rewrite Hdom; set_solver. }
  split; [done|]. split; [done|].
  destruct Hhas as [[btc Hb] [eth He]].
  rewrite score_decomposition. unfold getitem. rewrite Hb, He.
  cbn [mbind result_bind].
  pose proof (change_never_KeyError self (price (bitcoin price_data)) "bitcoin") as Hcb.
  pose proof (change_never_KeyError self (price (ethereum price_data)) "ethereum") as Hce.
  destruct (calculate_change_from_643am self _ "bitcoin") as [b|eb];
    [|cbn [mbind result_bind]; congruence].
  destruct (calculate_change_from_643am self _ "ethereum") as [e|ee];
    cbn [mbind result_bind]; congruence.
Qed.

Lemma genuine_kept strftime_HMS self msg :
  (∀ crypto history,
     recent_liquidations self !! crypto = Some history → Forall (genuine crypto) history) →
  ∀ crypto history,
    recent_liquidations (on_message strftime_HMS self msg) !! crypto = Some history →
    Forall (genuine crypto) history.
Proof.
  intros Hinv. destruct msg as [| | |sym sd q p T]; try done.
  cbn [on_message]. destruct (strftime_HMS T) as [t|]; [|done].
  cbn [value]. destruct (Qgtb (q * p) 100000) eqn:Hval; [|done].
  apply Qgtb_spec in Hval.
  unfold process_liquidation. cbn [symbol].
  destruct (crypto_map !! sym) as [c|] eqn:Hsym; [|done].
  unfold getitem.
  destruct (recent_liquidations self !! c) as [h|] eqn:Hh; [|done].
  cbn [fst recent_liquidations set_liquidations].
  intros crypto history. rewrite lookup_insert. case_decide as Hk; [|apply Hinv].
  subst crypto. intros [= <-].
  assert (Hall : Forall (genuine c)
                   (h ++ [mkLiquidationEvent sym sd q p (q * p) t "Binance"])).
  { apply Forall_app. split; [by apply Hinv|].
    apply Forall_singleton. by repeat split. }
  destruct (20 <? _)%nat; [|done].
  unfold slice_last. by apply Forall_drop.
Qed.

(** X14. Every event found in a history, at any time from [__init__] on,
    was put there by the stream handler: its symbol is the one of that
    history's instrument, its value is its quantity times its price and
    exceeds 100,000, and its exchange tag is 'Binance'. *)
Theorem stored_events_genuine strftime_HMS disk ops crypto history :
  recent_liquidations (foldl (run strftime_HMS) (init disk) ops) !! crypto = Some history →
  Forall (genuine crypto) history.
Proof.
  revert crypto history.
  assert (Hinit : ∀ crypto history,
            recent_liquidations (init disk) !! crypto = Some history →
            Forall (genuine crypto) history).
  { intros crypto history. rewrite init_liquidations.
    rewrite lookup_insert. case_decide; [by intros [= <-]|].
    rewrite lookup_singleton. case_decide; [by intros [= <-]|done]. }
  revert Hinit. generalize (init disk).
  induction ops as [|op ops IH]; intros self Hinv; [done|].
  cbn [foldl]. apply IH.
  destruct op as [msg|inp]; cbn [run].
  - by apply genuine_kept.
  - by rewrite scheduled_fetch_keeps_liquidations.
Qed.

Lemma stored_events_genuine_witness :
  Forall (genuine "bitcoin") [sample_event "BTCUSDT" "BUY" 3 50000].
Proof.
  apply (stored_events_genuine sample_clock ∅
           [Message (Order "BTCUSDT" "BUY" 3 50000 0);
            Message (Order "ETHUSDT" "SELL" 1 50000 0);
            Message NotJson]).
  reflexivity.
Defined.

(** * Further properties of the reference price tracker *)

Lemma capture_at_643 self price_data t io_ok :
  hour t = 6%Z → minute t = 43%Z →
  capture_643am_price self price_data t io_ok
  = save_reference_prices io_ok
      (set_reference
         {[ "bitcoin" := RFloat (price (bitcoin price_data));
            "ethereum" := RFloat (price (ethereum price_data));
            "timestamp" := RStamp t ]} self).
Proof.
  intros Hh Hm. unfold capture_643am_price. by rewrite Hh, Hm.
Qed.

(** X15. A capture overwrites whatever was captured before: after two
    captures the anchor is the one of the second, and the anchor file holds
    it when the second write succeeds. *)
Theorem capture_last_write_wins self pd1 pd2 t1 t2 io1 :
  hour t2 = 6%Z → minute t2 = 43%Z →
  let twice :=
    capture_643am_price (capture_643am_price self pd1 t1 io1) pd2 t2 true in
  reference_643am twice = reference_643am (capture_643am_price self pd2 t2 true)
  ∧ files twice !! "reference_prices.json"
    = Some (ReferenceBlob (reference_643am twice))
  ∧ recent_liquidations twice = recent_liquidations self.
Proof.
  intros Hh Hm twice. subst twice.
  rewrite (capture_at_643 (capture_643am_price self pd1 t1 io1)) by done.
  rewrite (capture_at_643 self pd2) by done.
  unfold save_reference_prices, write_file.
  cbn [reference_643am files recent_liquidations set_files set_reference].
  split; [done|]. split; [by rewrite lookup_insert_eq|].
  apply capture_keeps_liquidations.
Qed.

Lemma capture_last_write_wins_witness :
  reference_643am
    (capture_643am_price
       (capture_643am_price (init ∅)
          (mkByCrypto (mkPriceData 50000 2 0 0 "") (mkPriceData 2000 1 0 0 ""))
          (sample_time 6 43 5) true)
       sample_prices (sample_time 6 43 35) true)
  = reference_643am
      (capture_643am_price (init ∅) sample_prices (sample_time 6 43 35) true).
Proof.
  apply capture_last_write_wins; reflexivity.
Defined.

(** X16. A captured anchor survives a restart, the histories do not: a
    fetcher built by [__init__] from the files left by a capture whose write
    succeeded starts with exactly that anchor and with two empty
    histories. *)
Theorem capture_survives_restart self price_data t :
  hour t = 6%Z → minute t = 43%Z →
  let restarted := init (files (capture_643am_price self price_data t true)) in
  reference_643am restarted
  = reference_643am (capture_643am_price self price_data t true)
  ∧ reference_643am restarted
    = {[ "bitcoin" := RFloat (price (bitcoin price_data));
         "ethereum" := RFloat (price (ethereum price_data));
         "timestamp" := RStamp t ]}
  ∧ recent_liquidations restarted = {[ "bitcoin" := []; "ethereum" := [] ]}.
Proof.
  intros Hh Hm restarted. subst restarted.
  split; [|split; [|apply init_liquidations]];
    rewrite !capture_at_643 by done;
    unfold save_reference_prices, write_file, init, load_reference_prices;
    cbn [reference_643am files set_files set_reference];
    by rewrite lookup_insert_eq.
Qed.

Lemma capture_survives_restart_witness :
  reference_643am
    (init (files (capture_643am_price (init ∅) sample_prices (sample_time 6 43 0) true)))
  = {[ "bitcoin" := RFloat 60000; "ethereum" := RFloat 3000;
       "timestamp" := RStamp (sample_time 6 43 0) ]}.
Proof.
  destruct (capture_survives_restart (init ∅) sample_prices (sample_time 6 43 0))
    as (_ & Hload & _); [reflexivity|reflexivity|].
  exact Hload.
Defined.

Lemma fetch_all_data_state self inp :
  fst (fetch_all_data self inp) = self
  ∨ ∃ price_data,
      fst (fetch_all_data self inp)
      = capture_643am_price self price_data (est_time inp) (reference_io_ok inp).
Proof.
  unfold fetch_all_data.
  destruct (get_price_data _ _ _) as [price_data|]; [|by left].
  destruct (get_funding_rates _ _ _ _ _) as [funding_data|]; [|by left].
  right. by exists price_data.
Qed.

Lemma scheduled_fetch_reference self inp :
  reference_643am (scheduled_fetch self inp)
  = reference_643am (fst (fetch_all_data self inp)).
Proof.
  unfold scheduled_fetch.
  destruct (fetch_all_data self inp) as [self' [[data|]|e]]; try done.
  unfold save_data_to_json, write_file. by destruct (market_io_ok inp).
Qed.

Lemma capture_all_or_nothing self price_data t io_ok :
  anchor_all_or_nothing self →
  anchor_all_or_nothing (capture_643am_price self price_data t io_ok).
Proof.
  intros Hinv. unfold capture_643am_price.
  destruct (_ && _); [|done].
  right. exists (price (bitcoin price_data)), (price (ethereum price_data)), t.
  unfold save_reference_prices, write_file. by destruct io_ok.
Qed.

(** X17. Started without an anchor file, the fetcher always holds either
    no anchor at all or both prices together with their capture instant:
    the three entries are only ever set together. *)
Theorem anchor_set_together strftime_HMS disk ops :
  disk !! "reference_prices.json" = None →
  anchor_all_or_nothing (foldl (run strftime_HMS) (init disk) ops).
Proof.
  intros Hdisk.
  assert (Hinit : anchor_all_or_nothing (init disk)).
  { left. unfold init, load_reference_prices. cbn [files]. by rewrite Hdisk. }
  revert Hinit. generalize (init disk).
  induction ops as [|op ops IH]; intros self Hinv; [done|].
  cbn [foldl]. apply IH.
  destruct op as [msg|inp]; cbn [run].
  - unfold anchor_all_or_nothing.
    by destruct (on_message_keeps strftime_HMS self msg) as (-> & _ & _).
  - unfold anchor_all_or_nothing. rewrite scheduled_fetch_reference.
    destruct (fetch_all_data_state self inp) as [-> | [price_data ->]]; [done|].
    by apply capture_all_or_nothing.
Qed.

Lemma anchor_set_together_witness :
  anchor_all_or_nothing
    (foldl (run sample_clock) (init ∅)
       [Poll (mkPollInputs (Replies sample_quotes) "" "" true
                (Replies (Some 0.005)) (Replies (Some 0.03)) Fails Fails
                (sample_time 6 43 0) true "" true);
        Message (Order "BTCUSDT" "BUY" 3 50000 0)]).
Proof.
  apply anchor_set_together. reflexivity.
Defined.

Lemma write_file_other name b io_ok self other :
  other ≠ name → files (write_file name b io_ok self) !! other = files self !! other.
Proof.
  intros Hne. unfold write_file. destruct io_ok; [|done].
  cbn [files set_files]. by rewrite lookup_insert_ne.
Qed.

Lemma run_other_files strftime_HMS self op name :
  name ≠ "reference_prices.json" → name ≠ "market_data.json" →
  files (run strftime_HMS self op) !! name = files self !! name.
Proof.
  intros Hr Hm. destruct op as [msg|inp]; cbn [run].
  - by destruct (on_message_keeps strftime_HMS self msg) as (_ & -> & _).
  - assert (Hcap : ∀ price_data,
              files (capture_643am_price self price_data (est_time inp)
                       (reference_io_ok inp)) !! name = files self !! name).
    { intros price_data. unfold capture_643am_price.
      destruct (_ && _); [|done].
      unfold save_reference_prices. by rewrite write_file_other. }
    pose proof (fetch_all_data_state self inp) as Hstate.
    unfold scheduled_fetch.
    destruct (fetch_all_data self inp) as [self' [[data|]|e]]; cbn [fst] in Hstate;
      [unfold save_data_to_json; rewrite write_file_other by done|..];
      (destruct Hstate as [-> | [price_data ->]]; [done|apply Hcap]).
Qed.

(** X18. The fetcher writes two files only: whatever messages and polls
    happen, any file other than [reference_prices.json] and
    [market_data.json] is left as it was. *)
Theorem only_two_files_written strftime_HMS self ops name :
  name ≠ "reference_prices.json" → name ≠ "market_data.json" →
  files (foldl (run strftime_HMS) self ops) !! name = files self !! name.
Proof.
  intros Hr Hm. revert self.
  induction ops as [|op ops IH]; intros self; [done|].
  cbn [foldl]. rewrite IH. by apply run_other_files.
Qed.

Lemma only_two_files_written_witness :
  files
    (foldl (run sample_clock) (init {[ "notes.txt" := ReferenceBlob ∅ ]})
       [Poll (sample_inputs (Replies sample_quotes) true)])
    !! "notes.txt"
  = files (init {[ "notes.txt" := ReferenceBlob ∅ ]}) !! "notes.txt".
Proof.
  apply only_two_files_written; discriminate.
Defined.

(** * Further properties of the orchestrator *)

(** X19. Every emitted snapshot is consistent with the fetcher at that
    poll: both fetches returned data, its prices and funding rates are the
    fetched ones, its score is the score of the fetcher after the capture
    step, its liquidations are the two histories, its anchor is the anchor
    after the capture step, and when the write succeeds
    [market_data.json] holds exactly this snapshot. *)
Theorem emitted_snapshot_consistent self inp data :
  emitted self inp = Some data →
  ∃ price_data funding_data,
    get_price_data (coingecko inp) (now_btc inp) (now_eth inp) = Some price_data
    ∧ get_funding_rates (session_ok inp) (binance_btc inp) (binance_eth inp)
        (bybit_btc inp) (bybit_eth inp) = Some funding_data
    ∧ let captured :=
        capture_643am_price self price_data (est_time inp) (reference_io_ok inp) in
      md_bitcoin data = bitcoin price_data
      ∧ md_ethereum data = ethereum price_data
      ∧ funding_rates data = funding_data
      ∧ calculate_sentiment_score captured price_data funding_data
        = Ok (sentiment_score data)
      ∧ recent_liquidations self !! "bitcoin" = Some (bitcoin (liquidations data))
      ∧ recent_liquidations self !! "ethereum" = Some (ethereum (liquidations data))
      ∧ md_reference_643am data = reference_643am captured
      ∧ md_timestamp data = now_snapshot inp
      ∧ (market_io_ok inp = true →
         files (scheduled_fetch self inp) !! "market_data.json" = Some (MarketBlob data)).
Proof.
  unfold emitted, scheduled_fetch, fetch_all_data.
  destruct (get_price_data _ _ _) as [price_data|]; [|done].
  destruct (get_funding_rates _ _ _ _ _) as [funding_data|]; [|done].
  set (captured := capture_643am_price self price_data (est_time inp) (reference_io_ok inp)).
  assert (Hliq : recent_liquidations captured = recent_liquidations self)
    by apply capture_keeps_liquidations.
  destruct (calculate_sentiment_score captured price_data funding_data)
    as [score|e] eqn:Hscore; [|done].
  cbn [mbind result_bind]. unfold getitem. rewrite Hliq.
  destruct (recent_liquidations self !! "bitcoin") as [btc|]; [|done].
  destruct (recent_liquidations self !! "ethereum") as [eth|]; [|done].
  cbn [mbind result_bind]. intros [= <-].
  exists price_data, funding_data. cbn.
  repeat split; try done.
  intros ->. unfold save_data_to_json, write_file. cbn [files set_files].
  by rewrite lookup_insert_eq.
Qed.

Lemma emitted_snapshot_consistent_witness :
  ∃ data,
    emitted (init ∅) (sample_inputs (Replies sample_quotes) true) = Some data
    ∧ files (scheduled_fetch (init ∅) (sample_inputs (Replies sample_quotes) true))
        !! "market_data.json" = Some (MarketBlob data).
Proof.
  destruct (emitted (init ∅) (sample_inputs (Replies sample_quotes) true))
    as [data|] eqn:Hdata; [|vm_compute in Hdata; discriminate].
  exists data. split; [reflexivity|].
  destruct (emitted_snapshot_consistent _ _ _ Hdata)
    as (pd & fd & _ & _ & _ & _ & _ & _ & _ & _ & _ & _ & Hfile).
  apply Hfile. reflexivity.
Defined.

Lemma score_raises_on_zero_anchor self price_data funding_data crypto ref_price :
  crypto = "bitcoin" ∨ crypto = "ethereum" →
  reference_643am self !! crypto = Some (RFloat ref_price) →
  ref_price == 0 →
  ∃ e, calculate_sentiment_score self price_data funding_data = Raise e.
Proof.
  intros Hc Href Hz. rewrite score_decomposition.
  destruct (getitem (recent_liquidations self) "bitcoin"); [|by eexists].
  destruct (getitem (recent_liquidations self) "ethereum"); [|by eexists].
  cbn [mbind result_bind].
  destruct Hc as [-> | ->].
  - rewrite (change_zero_anchor _ _ _ _ Href Hz). by eexists.
  - destruct (calculate_change_from_643am self _ "bitcoin"); [|by eexists].
    cbn [mbind result_bind].
    rewrite (change_zero_anchor _ _ _ _ Href Hz). by eexists.
Qed.

(** X20. An anchor price of zero silences the poll loop: while the bitcoin
    or ethereum anchor is 0, every poll outside 6:43 raises inside
    [calculate_sentiment_score], so it emits no snapshot and leaves the
    fetcher and its files exactly as they were, however many polls follow. *)
Theorem zero_anchor_blocks_snapshots self crypto ref_price inps :
  crypto = "bitcoin" ∨ crypto = "ethereum" →
  reference_643am self !! crypto = Some (RFloat ref_price) →
  ref_price == 0 →
  Forall (λ inp, ¬ (hour (est_time inp) = 6%Z ∧ minute (est_time inp) = 43%Z)) inps →
  Forall (λ inp, emitted self inp = None) inps
  ∧ foldl scheduled_fetch self inps = self.
Proof.
  intros Hc Href Hz Hout.
  assert (Hone : ∀ inp,
            ¬ (hour (est_time inp) = 6%Z ∧ minute (est_time inp) = 43%Z) →
            emitted self inp = None ∧ scheduled_fetch self inp = self).
  { intros inp Hno. unfold emitted, scheduled_fetch, fetch_all_data.
    destruct (get_price_data _ _ _) as [price_data|]; [|done].
    destruct (get_funding_rates _ _ _ _ _) as [funding_data|]; [|done].
    rewrite capture_outside_643 by done.
    destruct (score_raises_on_zero_anchor self price_data funding_data _ _ Hc Href Hz)
      as [e ->].
    done. }
  split.
  - eapply Forall_impl; [exact Hout|]. intros inp Hno. by apply Hone.
  - induction Hout as [|inp inps Hno _ IH]; [done|].
    cbn [foldl]. destruct (Hone inp Hno) as [_ ->]. exact IH.
Qed.

Lemma zero_anchor_blocks_snapshots_witness :
  let self :=
    set_reference {[ "bitcoin" := RFloat 0; "ethereum" := RFloat 3000 ]} (init ∅) in
  foldl scheduled_fetch self
    [sample_inputs (Replies sample_quotes) true;
     sample_inputs (Replies sample_quotes) true]
  = self.
Proof.
  cbv zeta.
  apply (zero_anchor_blocks_snapshots _ "bitcoin" 0); try reflexivity.
  - by left.
  - repeat constructor; intros [Hh _]; discriminate Hh.
Defined.

(** X21. Within one exchange the bitcoin request comes first and shares
    its [try] with the ethereum request: if it raises, the ethereum rate of
    that exchange is absent whatever its request would return, while a
    raising ethereum request keeps the bitcoin rate.  The two exchanges do
    not affect each other. *)
Theorem exchange_requests_order b1 b2 y1 y2 fd :
  get_funding_rates true b1 b2 y1 y2 = Some fd →
  (b1 = Fails → binance (bitcoin fd) = None ∧ binance (ethereum fd) = None)
  ∧ (∀ r, b1 = Replies r → b2 = Fails →
       binance (bitcoin fd) = r ∧ binance (ethereum fd) = None)
  ∧ (∀ r r', b1 = Replies r → b2 = Replies r' →
       binance (bitcoin fd) = r ∧ binance (ethereum fd) = r')
  ∧ (∀ b1' b2' fd',
       get_funding_rates true b1' b2' y1 y2 = Some fd' →
       bybit (bitcoin fd') = bybit (bitcoin fd)
       ∧ bybit (ethereum fd') = bybit (ethereum fd)).
Proof.
  intros Hfd.
  destruct (get_funding_rates_fields _ _ _ _ _ _ Hfd) as (Hbb & Hbe & Hyb & Hye).
  split; [|split; [|split]].
  - intros ->. done.
  - intros r -> ->. done.
  - intros r r' -> ->. done.
  - intros b1' b2' fd' Hfd'.
    destruct (get_funding_rates_fields _ _ _ _ _ _ Hfd') as (_ & _ & Hyb' & Hye').
    by rewrite Hyb, Hye, Hyb', Hye'.
Qed.

Lemma exchange_requests_order_witness :
  ∃ fd,
    get_funding_rates true Fails (Replies (Some 0.02)) (Replies (Some 0.01)) Fails = Some fd
    ∧ binance (bitcoin fd) = None
    ∧ binance (ethereum fd) = None.
Proof.
  eexists. split; [reflexivity|].
  destruct (exchange_requests_order Fails (Replies (Some 0.02)) (Replies (Some 0.01))
              Fails _ eq_refl) as (Hfail & _).
  apply Hfail. reflexivity.
Defined.

Lemma get_funding_rates_average session b1 b2 y1 y2 fd r :
  get_funding_rates session b1 b2 y1 y2 = Some fd →
  r = bitcoin fd ∨ r = ethereum fd →
  average r
  = match binance r, bybit r with
    | Some a, Some b => Some (py_sum [a; b] / py_len [a; b])
    | Some a, None => Some (py_sum [a] / py_len [a])
    | None, Some b => Some (py_sum [b] / py_len [b])
    | None, None => None
    end.
Proof.
  unfold get_funding_rates. destruct session; [|done]. intros [= <-] Hr.
  destruct b1 as [|[r1|]], b2 as [|[r2|]], y1 as [|[r3|]], y2 as [|[r4|]];
    destruct Hr as [-> | ->]; reflexivity.
Qed.

(** X22. In a record returned by [get_funding_rates], the average of two
    present rates is their midpoint and lies between them; with a single
    present rate the average is that rate; with none it is absent. *)
Theorem average_between_rates session b1 b2 y1 y2 fd r :
  get_funding_rates session b1 b2 y1 y2 = Some fd →
  r = bitcoin fd ∨ r = ethereum fd →
  (∀ a b, binance r = Some a → bybit r = Some b →
     ∃ m, average r = Some m ∧ m == (a + b) / 2
          ∧ (a <= b → a <= m <= b) ∧ (b <= a → b <= m <= a))
  ∧ (∀ a, binance r = Some a → bybit r = None → ∃ m, average r = Some m ∧ m == a)
  ∧ (∀ b, binance r = None → bybit r = Some b → ∃ m, average r = Some m ∧ m == b)
  ∧ (binance r = None → bybit r = None → average r = None).
Proof.
  intros Hfd Hr. rewrite (get_funding_rates_average _ _ _ _ _ _ _ Hfd Hr).
  assert (Hone : ∀ a : Q, py_sum [a] / py_len [a] == a).
  { intros a. change (py_len [a]) with 1. unfold py_sum. cbn [foldl]. field. }
  assert (Htwo : ∀ a b : Q, py_sum [a; b] / py_len [a; b] == (a + b) / 2).
  { intros a b. change (py_len [a; b]) with 2. unfold py_sum. cbn [foldl]. field. }
  split; [|split; [|split]].
  - intros a b -> ->. eexists. split; [reflexivity|].
    split; [apply Htwo|]. rewrite Htwo.
    split; intros Hab; split;
      first [apply Qle_shift_div_l | apply Qle_shift_div_r]; lra.
  - intros a -> ->. eexists. split; [reflexivity|]. apply Hone.
  - intros b -> ->. eexists. split; [reflexivity|]. apply Hone.
  - by intros -> ->.
Qed.

Lemma average_between_rates_witness :
  ∃ fd m,
    get_funding_rates true (Replies (Some 0.01)) Fails (Replies (Some 0.03)) Fails = Some fd
    ∧ average (bitcoin fd) = Some m
    ∧ m == 0.02.
Proof.
  eexists.
  destruct (average_between_rates true (Replies (Some 0.01)) Fails
              (Replies (Some 0.03)) Fails _ _ eq_refl (or_introl eq_refl))
    as (Htwo & _).
  destruct (Htwo 0.01 0.03 eq_refl eq_refl) as (m & Hm & Hmid & _).
  exists m. split; [reflexivity|]. split; [exact Hm|].
  rewrite Hmid. reflexivity.
Defined.

(** X23. With a positive anchor price the deviation has the sign of the
    move: it is positive exactly when the current price is above the
    anchor, zero exactly when they are equal, negative exactly when
    below. *)
Theorem deviation_sign self current_price crypto ref_price :
  reference_643am self !! crypto = Some (RFloat ref_price) →
  0 < ref_price →
  ∃ d,
    calculate_change_from_643am self current_price crypto = Ok (Some d)
    ∧ (0 < d ↔ ref_price < current_price)
    ∧ (d == 0 ↔ current_price == ref_price)
    ∧ (d < 0 ↔ current_price < ref_price).
Proof.
  intros Href Hpos.
  assert (Hnz : ¬ ref_price == 0) by lra.
  eexists. split; [by apply change_captured|].
  set (d := (current_price - ref_price) / ref_price * 100).
  assert (Hd : d * ref_price == (current_price - ref_price) * 100)
    by (unfold d; by field).
  assert (Hprod : ∀ x : Q, 0 < x → 0 < x * ref_price) by (intros; nra).
  split; [|split].
  - split; intros H; nra.
  - split; intros H.
    + rewrite H in Hd. lra.
    + assert (Hz : d * ref_price == 0) by (rewrite Hd, H; ring).
      apply Qmult_integral in Hz as [Hz|Hz]; [done|contradiction].
  - split; intros H; nra.
Qed.

Lemma deviation_sign_witness :
  ∃ d,
    calculate_change_from_643am
      (capture_643am_price (init ∅) sample_prices (sample_time 6 43 0) true)
      55000 "ethereum" = Ok (Some d)
    ∧ 0 < d.
Proof.
  destruct (deviation_sign
              (capture_643am_price (init ∅) sample_prices (sample_time 6 43 0) true)
              55000 "ethereum" 3000)
    as (d & Hd & Hsign & _); [reflexivity|reflexivity|].
  exists d. split; [exact Hd|]. apply Hsign. reflexivity.
Defined.

Lemma init_anchor_file disk anchor :
  disk !! "reference_prices.json" = Some (ReferenceBlob anchor) →
  reference_643am (init disk) = anchor.
Proof.
  intros Hdisk. unfold init, load_reference_prices. cbn [files]. by rewrite Hdisk.
Qed.

Lemma init_has_histories disk : has_histories (init disk).
Proof.
  unfold has_histories. rewrite init_liquidations. split; eauto.
Qed.

(** X24. The first fetch of [main] runs outside any [try]: started
    outside 6:43 from an anchor file whose bitcoin price is 0, with both
    fetches succeeding, it raises [ZeroDivisionError] and ends the process,
    whereas the same poll inside the loop is caught and leaves the fetcher
    as it was. *)
Theorem startup_outcome disk inp anchor ref_price :
  ¬ (hour (est_time inp) = 6%Z ∧ minute (est_time inp) = 43%Z) →
  disk !! "reference_prices.json" = Some (ReferenceBlob anchor) →
  anchor !! "bitcoin" = Some (RFloat ref_price) →
  ref_price == 0 →
  coingecko inp ≠ Fails → session_ok inp = true →
  main_startup disk inp = Raise ZeroDivisionError
  ∧ scheduled_fetch (init disk) inp = init disk.
Proof.
  intros Hout Hdisk Hbtc Hz Hprice Hsession.
  assert (Hfetch : fetch_all_data (init disk) inp = (init disk, Raise ZeroDivisionError)).
  { unfold fetch_all_data.
    destruct (get_price_data _ _ _) as [price_data|] eqn:Hpd;
      [|by apply get_price_data_returns in Hpd].
    destruct (get_funding_rates _ _ _ _ _) as [funding_data|] eqn:Hfd;
      [|apply get_funding_rates_returns in Hfd; congruence].
    rewrite capture_outside_643 by done.
    rewrite score_decomposition.
    destruct (init_has_histories disk) as [[btc Hb] [eth He]].
    unfold getitem. rewrite Hb, He. cbn [mbind result_bind].
    rewrite (change_zero_anchor (init disk) _ "bitcoin" ref_price); [done| |done].
    by rewrite (init_anchor_file _ _ Hdisk). }
  unfold main_startup, scheduled_fetch. by rewrite Hfetch.
Qed.

Lemma startup_outcome_witness :
  main_startup
    {[ "reference_prices.json" :=
         ReferenceBlob {[ "bitcoin" := RFloat 0; "ethereum" := RFloat 3000 ]} ]}
    (sample_inputs (Replies sample_quotes) true)
  = Raise ZeroDivisionError.
Proof.
  eapply (startup_outcome
            {[ "reference_prices.json" :=
                 ReferenceBlob {[ "bitcoin" := RFloat 0; "ethereum" := RFloat 3000 ]} ]}
            (sample_inputs (Replies sample_quotes) true)
            {[ "bitcoin" := RFloat 0; "ethereum" := RFloat 3000 ]} 0);
    try reflexivity; try discriminate.
  intros [Hh _]. discriminate Hh.
Defined.
